(** * notebooks/helper_funcs.py: the report parser and the colormap shifter

    A shallow embedding of [read_file_custom] and [shifted_color_map] of
    [notebooks/helper_funcs.py].

    - A Python [str] decoded from latin-1 is a [string]: every character is
      one code point below 256, which is what [ascii] holds.
    - A Python [float] is an IEEE 754 binary64 number, [spec_float] with
      precision 53 and maximal exponent 1024; [np.nan] is [S754_nan].
    - An exception is a value of [py_exception]; a computation that can
      raise returns a [result].
    - The description dictionary is a [gmap string string].
    - [read_file_custom] is modelled from the list [lines] on (the value of
      [f.read().splitlines()]); opening and reading the file is outside. *)

From Stdlib Require Import ZArith String Ascii List Lia.
From Stdlib Require Import Floats.SpecFloat.
From stdpp Require Import gmap strings list.

Open Scope string_scope.
Open Scope list_scope.

(** ** Exceptions and results *)

Inductive py_exception : Type :=
  | IndexError
  | KeyError
  | ValueError
  | UnboundLocalError (name : string)
  | ZeroDivisionError
  | OverflowError.

Inductive result (A : Type) : Type :=
  | Ok (a : A)
  | Raise (e : py_exception).

Arguments Ok {A} a.
Arguments Raise {A} e.

Definition bind {A B : Type} (m : result A) (k : A -> result B) : result B :=
  match m with
  | Ok a => k a
  | Raise e => Raise e
  end.

Notation "'do' x <- m ; k" := (bind m (fun x => k))
  (at level 10, x name, m at level 100, k at level 200).

(** [l[i]] for a non-negative literal index [i]. *)
Definition index {A : Type} (l : list A) (i : nat) : result A :=
  match l !! i with
  | Some a => Ok a
  | None => Raise IndexError
  end.

(** [try: m except: handler] with a bare [except]. *)
Definition try_except {A : Type} (m : result A) (handler : A) : A :=
  match m with
  | Ok a => a
  | Raise _ => handler
  end.

(** [mapM f l]: the loop [for item in l] that stops at the first exception. *)
Fixpoint mapM {A B : Type} (f : A -> result B) (l : list A) : result (list B) :=
  match l with
  | [] => Ok []
  | a :: l' => do b <- f a; do bs <- mapM f l'; Ok (b :: bs)
  end.

(** ** Python string methods *)

Module PyStr.

(** [c.isspace()] for a code point below 256: the ASCII white space
    (tab to carriage return, the four separators 28 to 31, the blank) and
    the two Latin-1 ones, NEL (133) and the no-break space (160). *)
Definition isspace (c : ascii) : bool :=
  let n := nat_of_ascii c in
  (((9 <=? n) && (n <=? 13)) || ((28 <=? n) && (n <=? 32))
   || (n =? 133) || (n =? 160))%nat.

Fixpoint drop (n : nat) (s : string) : string :=
  match n, s with
  | S n', String _ s' => drop n' s'
  | _, _ => s
  end.

(** [s.partition(sep)] when [sep] occurs: the text before and after the
    first occurrence of [sep]; [None] when [sep] does not occur. *)
Fixpoint partition (sep s : string) : option (string * string) :=
  if String.prefix sep s then Some ("", drop (String.length sep) s)
  else match s with
       | "" => None
       | String c s' =>
           match partition sep s' with
           | Some (a, b) => Some (String c a, b)
           | None => None
           end
       end.

(** [sep in s]. *)
Definition contains (sep s : string) : bool :=
  match partition sep s with Some _ => true | None => false end.

(** [s.split(sep)] for a non-empty [sep]: cut at the occurrences of [sep]
    found from left to right, each search starting behind the previous
    occurrence.  [fuel] bounds the number of cuts; [String.length s] is
    enough, since a cut removes at least one character
    ([split_fuel_enough]).  Every call in the module passes a non-empty
    literal; Python raises [ValueError] for an empty one. *)
Fixpoint split_fuel (fuel : nat) (sep s : string) : list string :=
  match fuel with
  | O => [s]
  | S fuel' =>
      match partition sep s with
      | Some (a, b) => a :: split_fuel fuel' sep b
      | None => [s]
      end
  end.

Definition split (sep s : string) : list string :=
  split_fuel (String.length s) sep s.

(** [s.split()]: the maximal runs of characters that are not white space.
    [tok] is the run being read, if any. *)
Fixpoint split_ws_from (tok : option string) (s : string) : list string :=
  match s with
  | "" => match tok with Some t => [t] | None => [] end
  | String c s' =>
      if isspace c then
        match tok with
        | Some t => t :: split_ws_from None s'
        | None => split_ws_from None s'
        end
      else
        split_ws_from (Some (from_option id "" tok +:+ String c "")) s'
  end.

Definition split_ws (s : string) : list string := split_ws_from None s.

Fixpoint lstrip (s : string) : string :=
  match s with
  | String c s' => if isspace c then lstrip s' else s
  | "" => ""
  end.

Fixpoint rstrip (s : string) : string :=
  match s with
  | String c s' =>
      match rstrip s' with
      | "" => if isspace c then "" else String c ""
      | r => String c r
      end
  | "" => ""
  end.

(** [s.strip()]. *)
Definition strip (s : string) : string := rstrip (lstrip s).

Definition lower_char (c : ascii) : ascii :=
  let n := nat_of_ascii c in
  if ((65 <=? n) && (n <=? 90))%nat then ascii_of_nat (n + 32) else c.

Fixpoint lower (s : string) : string :=
  match s with
  | "" => ""
  | String c s' => String (lower_char c) (lower s')
  end.

End PyStr.

(** ** Python floats *)

Module PyFloat.

Definition prec : Z := 53.
Definition emax : Z := 1024.

Definition nan : spec_float := S754_nan.

(** [float(z)] for an integer that fits: rounded to nearest, ties to even;
    an integer beyond the largest float gives an infinity here, which the
    callers turn into [OverflowError]. *)
Definition of_int (z : Z) : spec_float := binary_normalize prec emax z 0 false.

(** The float nearest to [m * 10 ^ e] for a decimal literal with digits
    [m] and decimal exponent [e], ties to even; overflow gives an
    infinity and underflow a subnormal or a zero, as [float] does. *)
Definition of_decimal (neg : bool) (m e : Z) : spec_float :=
  match m with
  | Zpos p =>
      if (0 <=? e)%Z then
        binary_normalize prec emax ((if neg then Zneg p else Zpos p) * 10 ^ e) 0 false
      else
        let '(mz, ez, lz) :=
          SFdiv_core_binary prec emax (Zpos p) 0 (10 ^ (- e)) 0 in
        binary_round_aux prec emax neg mz ez lz
  | _ => S754_zero neg
  end.

Definition is_digit (c : ascii) : bool :=
  let n := nat_of_ascii c in ((48 <=? n) && (n <=? 57))%nat.

Definition digit_val (c : ascii) : Z := Z.of_nat (nat_of_ascii c) - 48.

(** The rest of a [digitpart] behind a digit: [(["_"] digit)*].  [acc] is
    the value of the digits read and [n] their number. *)
Fixpoint more_digits (acc : Z) (n : nat) (s : string) : Z * nat * string :=
  match s with
  | String c s' =>
      if is_digit c then more_digits (acc * 10 + digit_val c) (S n) s'
      else if Ascii.eqb c "_" then
        match s' with
        | String d s'' =>
            if is_digit d then more_digits (acc * 10 + digit_val d) (S n) s''
            else (acc, n, s)
        | "" => (acc, n, s)
        end
      else (acc, n, s)
  | "" => (acc, n, s)
  end.

(** [digitpart ::= digit (["_"] digit)*]. *)
Definition digitpart (acc : Z) (s : string) : option (Z * nat * string) :=
  match s with
  | String c s' =>
      if is_digit c then Some (more_digits (acc * 10 + digit_val c) 1 s')
      else None
  | "" => None
  end.

(** [number ::= [digitpart] "." digitpart | digitpart ["."]]: the digits
    as one integer, the number of digits behind the point, the rest. *)
Definition number (s : string) : option (Z * nat * string) :=
  match s with
  | String "." s' => digitpart 0 s'
  | _ =>
      match digitpart 0 s with
      | Some (m, _, String "." r) =>
          match digitpart m r with
          | Some res => Some res
          | None => Some (m, O, r)
          end
      | Some (m, _, r) => Some (m, O, r)
      | None => None
      end
  end.

Definition sign (s : string) : bool * string :=
  match s with
  | String "-" s' => (true, s')
  | String "+" s' => (false, s')
  | _ => (false, s)
  end.

(** [exponent ::= ("e" | "E") [sign] digitpart], up to the end. *)
Definition exponent (s : string) : option Z :=
  match s with
  | "" => Some 0%Z
  | String c s' =>
      if Ascii.eqb c "e" || Ascii.eqb c "E" then
        let '(neg, s'') := sign s' in
        match digitpart 0 s'' with
        | Some (v, _, "") => Some (if neg then (- v)%Z else v)
        | _ => None
        end
      else None
  end.

(** [float(s)] for a string without surrounding white space: [None] is
    the [ValueError] of a string that is no float literal. *)
Definition parse (s : string) : option spec_float :=
  let '(neg, body) := sign s in
  let word := PyStr.lower body in
  if String.eqb word "inf" || String.eqb word "infinity" then
    Some (S754_infinity neg)
  else if String.eqb word "nan" then Some S754_nan
  else
    match number body with
    | Some (m, k, r) =>
        match exponent r with
        | Some e => Some (of_decimal neg m (e - Z.of_nat k))
        | None => None
        end
    | None => None
    end.

(** [x == z] for a float [x] and a small integer [z]. *)
Definition eq_int (x : spec_float) (z : Z) : bool :=
  SFeqb x (of_int z).

End PyFloat.

(** [float(item)]. *)
Definition float (item : string) : result spec_float :=
  match PyFloat.parse item with
  | Some x => Ok x
  | None => Raise ValueError
  end.

(** ** read_file_custom *)

(** A cell of a row of [data]: the rows are Python lists that hold
    strings, a flag and floats. *)
Inductive cell : Type :=
  | CStr (s : string)
  | CBool (b : bool)
  | CFloat (x : spec_float).

(** What [DataFrame(data, columns=header)] followed by
    [set_index(keys, inplace=True)] builds: the names of the index levels,
    the names of the columns that remain, and per row the index key and the
    remaining cells. *)
Record DataFrame : Type := mkDataFrame {
  df_index : list string;
  df_columns : list string;
  df_rows : list (list cell * list cell)
}.

(** The local variables of [read_file_custom] that live across the
    iterations of its loop, and what it has printed.  [years] and [header]
    have no assignment before the loop: [None] is the unbound name. *)
Record locals : Type := mkLocals {
  test_case : string;
  control_case : string;
  years : option string;
  header : option (list string);
  in_data : bool;
  data : list (list cell);
  stdout : list string
}.

Definition problem_vars : list string :=
  ["FSNTOAC_CERES-EBAF"; "FSNTOA_CERES-EBAF"].

Definition header_columns : list string :=
  ["Run"; "Years"; "Variable"; "Description"; "Flag";
   "Model"; "Obs"; "Bias"; "RMSE"].

Definition index_keys : list string :=
  ["Run"; "Years"; "Variable"; "Description"].

(** [print(...)] under [if verbose]. *)
Definition print_if (verbose : bool) (msg : string) (out : list string)
  : list string :=
  if verbose then out ++ [msg] else out.

(** Reading a local variable that may be unbound. *)
Definition read_local (name : string) (v : option string) : result string :=
  match v with
  | Some x => Ok x
  | None => Raise (UnboundLocalError name)
  end.

(** Lines 108 to 115: the state before the loop. *)
Definition initial : locals :=
  {| test_case := ""; control_case := ""; years := None; header := None;
     in_data := false; data := []; stdout := [] |}.

(** Assignments to one local variable. *)
Definition set_control_case (c : string) (st : locals) : locals :=
  {| test_case := test_case st; control_case := c; years := years st;
     header := header st; in_data := in_data st; data := data st;
     stdout := stdout st |}.

Definition set_in_data (b : bool) (st : locals) : locals :=
  {| test_case := test_case st; control_case := control_case st;
     years := years st; header := header st; in_data := b; data := data st;
     stdout := stdout st |}.

Definition set_stdout (out : list string) (st : locals) : locals :=
  {| test_case := test_case st; control_case := control_case st;
     years := years st; header := header st; in_data := in_data st;
     data := data st; stdout := out |}.

(** [data.append(line_data)]. *)
Definition append_data (line_data : list cell) (st : locals) : locals :=
  {| test_case := test_case st; control_case := control_case st;
     years := years st; header := header st; in_data := in_data st;
     data := data st ++ [line_data]; stdout := stdout st |}.

(** Lines 111 and 112: [if not var_info_dict: var_info_dict = {}]. *)
Definition normalize_dict (var_info_dict : option (gmap string string))
  : gmap string string :=
  match var_info_dict with
  | Some d => d
  | None => ∅
  end.

(** Lines 120 to 125: a line that contains "TEST CASE:". *)
Definition test_case_line (st : locals) (line : string) : result locals :=
  do part <- index (PyStr.split "TEST CASE:" line) 1;
  let spl := PyStr.split "(yrs " (PyStr.strip part) in
  do tc <- index spl 0;
  do ys <- index spl 1;
  do y <- index (PyStr.split ")" ys) 0;
  Ok {| test_case := tc; control_case := control_case st;
        years := Some y; header := Some header_columns;
        in_data := in_data st; data := data st; stdout := stdout st |}.

(** Lines 126 and 127: a line that contains "CONTROL CASE:". *)
Definition control_case_line (st : locals) (line : string) : result locals :=
  do part <- index (PyStr.split "CONTROL CASE:" line) 1;
  Ok (set_control_case (PyStr.strip part) st).

(** Lines 132 to 139: the loop over [problem_vars].  The result is what the
    loop leaves in [spl] and [_var] when [is_problem_var] is set ([None]
    when it is not), and the output. *)
Definition find_problem_var (verbose : bool) (line : string)
  (out : list string) : option (list string * string) * list string :=
  fold_left
    (fun acc var =>
       if PyStr.contains var line then
         (Some (PyStr.split var line, var),
          print_if verbose ("Problem case " +:+ var) (snd acc))
       else acc)
    problem_vars (None, out).

(** Lines 140 to 144: the variable name and the tokens behind it. *)
Definition split_row (matched : option (list string * string))
  (line : string) : result (string * list string) :=
  match matched with
  | Some (spl, _var) =>
      do part <- index spl 1;
      Ok (_var, PyStr.split_ws part)
  | None =>
      match PyStr.split_ws line with
      | _var :: spl => Ok (_var, spl)
      | [] => Raise IndexError
      end
  end.

(** Lines 147 to 155: the description and its flag.  The body of the [try]
    raises [KeyError] for a missing key and [ValueError] for an empty
    description; the bare [except] turns both into [("", False)]. *)
Definition describe (var_info_dict : gmap string string) (_var : string)
  : string * bool :=
  try_except
    (do var_info <- match var_info_dict !! _var with
                    | Some v => Ok v
                    | None => Raise KeyError
                    end;
     if String.eqb var_info "" then Raise ValueError
     else Ok (var_info, true))
    ("", false).

(** Lines 158 to 160: one numeric token. *)
Definition convert (item : string) : result spec_float :=
  do val <- float item;
  Ok (if PyFloat.eq_int val (-999) then PyFloat.nan else val).

(** Lines 146 to 161: the row that is appended to [data]. *)
Definition build_row (var_info_dict : gmap string string) (st : locals)
  (_var : string) (spl : list string) : result (list cell) :=
  do y <- read_local "years" (years st);
  let line_data := [CStr (test_case st); CStr y; CStr _var] in
  let '(var_info, flag) := describe var_info_dict _var in
  let line_data := line_data ++ [CStr var_info; CBool flag] in
  do vals <- mapM convert spl;
  Ok (line_data ++ map CFloat vals).

(** Lines 131 to 162: a candidate data row. *)
Definition data_line (var_info_dict : gmap string string) (verbose : bool)
  (st : locals) (line : string) : result locals :=
  let '(matched, out) := find_problem_var verbose line (stdout st) in
  do row <- split_row matched line;
  let '(_var, spl) := row in
  if (length spl =? 4)%nat then
    do line_data <- build_row var_info_dict st _var spl;
    Ok (append_data line_data (set_stdout out st))
  else Ok (set_stdout out st).

(** Lines 118 to 166: the body of the loop for one line.  [line.strip()]
    on line 118 builds a string that is dropped. *)
Definition step (var_info_dict : gmap string string) (verbose : bool)
  (st : locals) (line : string) : result locals :=
  if PyStr.contains "TEST CASE:" line then test_case_line st line
  else if PyStr.contains "CONTROL CASE:" line then control_case_line st line
  else if PyStr.contains "Variable" line then Ok (set_in_data true st)
  else if in_data st then data_line var_info_dict verbose st line
  else
    Ok (set_stdout
          (print_if verbose ("Ignoring line: " +:+ line) (stdout st)) st).

(** Line 117: [for line in lines]. *)
Fixpoint run_lines (var_info_dict : gmap string string) (verbose : bool)
  (st : locals) (lines : list string) : result locals :=
  match lines with
  | [] => Ok st
  | line :: rest =>
      do st' <- step var_info_dict verbose st line;
      run_lines var_info_dict verbose st' rest
  end.

(** The position of a column name. *)
Fixpoint position (name : string) (columns : list string) : option nat :=
  match columns with
  | [] => None
  | c :: columns' =>
      if String.eqb name c then Some O
      else option_map S (position name columns')
  end.

(** [DataFrame(data, columns=header)]: every row needs as many cells as
    there are columns. *)
Definition make_frame (rows : list (list cell)) (columns : list string)
  : result (list string * list (list cell)) :=
  if forallb (fun row => (length row =? length columns)%nat) rows
  then Ok (columns, rows)
  else Raise ValueError.

(** The entries of a row at the positions [ps]. *)
Definition pick {A : Type} (row : list A) (ps : list nat) : list A :=
  omap (fun p => row !! p) ps.

(** [df.set_index(keys, inplace=True)]: the key columns leave the frame and
    become the index; a name that is no column raises [KeyError]. *)
Definition set_index (frame : list string * list (list cell))
  (keys : list string) : result DataFrame :=
  let '(columns, rows) := frame in
  do ps <- mapM (fun k => match position k columns with
                          | Some p => Ok p
                          | None => Raise KeyError
                          end) keys;
  let keep := filter (fun p => negb (existsb (Nat.eqb p) ps))
                     (seq 0 (length columns)) in
  Ok {| df_index := keys;
        df_columns := pick columns keep;
        df_rows := map (fun row => (pick row ps, pick row keep)) rows |}.

(** Lines 107 to 173, from [lines] on: the frame and the output. *)
Definition read_file_custom (lines : list string)
  (var_info_dict : option (gmap string string)) (verbose : bool)
  : result (DataFrame * list string) :=
  let d := normalize_dict var_info_dict in
  do st <- run_lines d verbose initial lines;
  do columns <- match header st with
                | Some h => Ok h
                | None => Raise (UnboundLocalError "header")
                end;
  do frame <- make_frame (data st) columns;
  do df <- set_index frame index_keys;
  let out := print_if verbose ("Test case: " +:+ test_case st) (stdout st) in
  let out := print_if verbose ("Control case: " +:+ control_case st) out in
  Ok (df, out).

(** ** shifted_color_map *)

(** A number that [vmin] and [vmax] can be: a built-in int, a built-in
    float, or a numpy [float64] scalar, which the minimum or the maximum of
    an array is.  numpy's other scalar types are not modelled. *)
Inductive py_number : Type :=
  | PyInt (z : Z)
  | PyFloat (x : spec_float)
  | PyNpFloat (x : spec_float).

Module PyNum.

Import PyFloat.

(** The number is a numpy scalar: an operation with it is numpy's, whatever
    the other operand is, and gives a numpy scalar. *)
Definition is_numpy (a : py_number) : bool :=
  match a with
  | PyNpFloat _ => true
  | _ => false
  end.

(** The float result of an operation on [a] and [b]. *)
Definition wrap (a b : py_number) (x : spec_float) : py_number :=
  if is_numpy a || is_numpy b then PyNpFloat x else PyFloat x.

(** The float of a number in mixed arithmetic; an int beyond the floats
    raises [OverflowError]. *)
Definition to_float (a : py_number) : result spec_float :=
  match a with
  | PyFloat x => Ok x
  | PyNpFloat x => Ok x
  | PyInt z =>
      match of_int z with
      | S754_infinity _ => Raise OverflowError
      | x => Ok x
      end
  end.

(** [abs(a)]. *)
Definition abs (a : py_number) : py_number :=
  match a with
  | PyInt z => PyInt (Z.abs z)
  | PyFloat x => PyFloat (SFabs x)
  | PyNpFloat x => PyNpFloat (SFabs x)
  end.

(** [a + b]. *)
Definition add (a b : py_number) : result py_number :=
  match a, b with
  | PyInt x, PyInt y => Ok (PyInt (x + y))
  | _, _ =>
      do x <- to_float a;
      do y <- to_float b;
      Ok (wrap a b (SFadd prec emax x y))
  end.

(** [a - b]. *)
Definition sub (a b : py_number) : result py_number :=
  match a, b with
  | PyInt x, PyInt y => Ok (PyInt (x - y))
  | _, _ =>
      do x <- to_float a;
      do y <- to_float b;
      Ok (wrap a b (SFsub prec emax x y))
  end.

(** [a == 0]. *)
Definition is_zero (a : py_number) : bool :=
  match a with
  | PyInt z => (z =? 0)%Z
  | PyFloat x => SFeqb x (S754_zero false)
  | PyNpFloat x => SFeqb x (S754_zero false)
  end.

(** [a / b] for two ints: the quotient rounded once; [OverflowError] when
    it is beyond the floats. *)
Definition int_truediv (a b : Z) : result spec_float :=
  if (b =? 0)%Z then Raise ZeroDivisionError
  else if (a =? 0)%Z then Ok (S754_zero (b <? 0)%Z)
  else
    let '(mz, ez, lz) :=
      SFdiv_core_binary prec emax (Z.abs a) 0 (Z.abs b) 0 in
    match binary_round_aux prec emax (xorb (a <? 0)%Z (b <? 0)%Z) mz ez lz with
    | S754_infinity _ => Raise OverflowError
    | q => Ok q
    end.

(** [a / b]: for built-in ints and floats true division raises
    [ZeroDivisionError] for a zero divisor; numpy divides as IEEE 754 does
    (a warning, and an infinity or NaN) and raises nothing. *)
Definition truediv (a b : py_number) : result py_number :=
  match a, b with
  | PyInt x, PyInt y => do q <- int_truediv x y; Ok (PyFloat q)
  | _, _ =>
      do x <- to_float a;
      do y <- to_float b;
      if is_numpy a || is_numpy b then Ok (PyNpFloat (SFdiv prec emax x y))
      else if SFeqb y (S754_zero false) then Raise ZeroDivisionError
      else Ok (PyFloat (SFdiv prec emax x y))
  end.

End PyNum.

Definition rgba : Type := spec_float * spec_float * spec_float * spec_float.

(** A colormap is called with a position and returns a colour. *)
Definition colormap : Type := spec_float -> rgba.

(** The argument [cmap]: [None], a name or a colormap. *)
Inductive cmap_arg : Type :=
  | CmapNone
  | CmapName (name : string)
  | CmapObject (c : colormap).

Definition segment : Type := spec_float * spec_float * spec_float.

(** [cdict]: the four lists of segments. *)
Record segmentdata : Type := mkSegmentdata {
  red : list segment;
  green : list segment;
  blue : list segment;
  alpha : list segment
}.

(** What [colors.LinearSegmentedColormap(name, cdict)] is built from. *)
Record LinearSegmentedColormap : Type := mkLinearSegmentedColormap {
  cmap_name : string;
  cmap_segmentdata : segmentdata
}.

Section ShiftedColorMap.

(** matplotlib's [colormaps.seismic] and [colormaps.get_cmap], and numpy's
    [np.linspace(start, stop, num, endpoint)], which the function calls
    and this development does not define. *)
Variable seismic : colormap.
Variable get_cmap : string -> result colormap.
Variable linspace : py_number -> py_number -> nat -> bool -> list spec_float.

(** Lines 31 to 34. *)
Definition resolve_cmap (cmap : cmap_arg) : result colormap :=
  match cmap with
  | CmapNone => Ok seismic
  | CmapName name => get_cmap name
  | CmapObject c => Ok c
  end.

(** Line 36: [1 - abs(vmax)/(abs(vmax) + abs(vmin))]. *)
Definition midpoint (vmin vmax : py_number) : result py_number :=
  do total <- PyNum.add (PyNum.abs vmax) (PyNum.abs vmin);
  do ratio <- PyNum.truediv (PyNum.abs vmax) total;
  PyNum.sub (PyInt 1) ratio.

(** Lines 53 to 59: the loop that fills [cdict]. *)
Definition fill_cdict (cmap : colormap)
  (reg_index shift_index : list spec_float) : segmentdata :=
  fold_left
    (fun cdict '(ri, si) =>
       let '(r, g, b, a) := cmap ri in
       {| red := red cdict ++ [(si, r, r)];
          green := green cdict ++ [(si, g, g)];
          blue := blue cdict ++ [(si, b, b)];
          alpha := alpha cdict ++ [(si, a, a)] |})
    (zip reg_index shift_index)
    {| red := []; green := []; blue := []; alpha := [] |}.

Definition shifted_color_map (vmin vmax : py_number) (cmap : cmap_arg)
  : result LinearSegmentedColormap :=
  do cmap <- resolve_cmap cmap;
  do midpoint <- midpoint vmin vmax;
  let reg_index := linspace (PyInt 0) (PyInt 1) 257 true in
  let shift_index :=
    linspace (PyFloat (S754_zero false)) midpoint 128 false
    ++ linspace midpoint (PyFloat (PyFloat.of_int 1)) 129 true in
  Ok (mkLinearSegmentedColormap "shiftedcmap"
        (fill_cdict cmap reg_index shift_index)).

End ShiftedColorMap.

(** ** Notions of the statements *)

(** The line reaches the fourth branch of the loop body: it holds none of
    the three markers and the data section has begun. *)
Definition is_candidate_row (st : locals) (line : string) : bool :=
  negb (PyStr.contains "TEST CASE:" line)
  && negb (PyStr.contains "CONTROL CASE:" line)
  && negb (PyStr.contains "Variable" line)
  && in_data st.

(** The line reaches the first branch: it is a test-case header. *)
Definition is_test_case_header (line : string) : bool :=
  PyStr.contains "TEST CASE:" line.

(** The line reaches the third branch: it is a column header. *)
Definition is_column_header (line : string) : bool :=
  negb (PyStr.contains "TEST CASE:" line)
  && negb (PyStr.contains "CONTROL CASE:" line)
  && PyStr.contains "Variable" line.

Definition is_bound {A : Type} (v : option A) : bool :=
  match v with Some _ => true | None => false end.

(** The problem variable that the loop of lines 133 to 139 leaves in
    [_var], if any. *)
Definition matched_var (line : string) : option string :=
  option_map snd (fst (find_problem_var false line [])).

(** The variable name of a candidate row and the token sequence behind it,
    as lines 132 to 144 compute them. *)
Definition row_tokens (line : string) : result (string * list string) :=
  split_row (fst (find_problem_var false line [])) line.

(** What lines 133 to 139 print. *)
Definition row_output (verbose : bool) (line : string) (out : list string)
  : list string :=
  snd (find_problem_var verbose line out).

(** The missing-value rule of lines 159 and 160 on a parsed float. *)
Definition sentinel (val : spec_float) : spec_float :=
  if PyFloat.eq_int val (-999) then PyFloat.nan else val.

(** A row of nine cells: run, years, variable, description, flag and four
    floats. *)
Definition row_shape (row : list cell) : bool :=
  match row with
  | [CStr _; CStr _; CStr _; CStr _; CBool _;
     CFloat _; CFloat _; CFloat _; CFloat _] => true
  | _ => false
  end.

(** The floats 1.0, 2.0, 3.0, 4.0, 1.1, 2.2, 3.3 and -999.0. *)
Definition f1_0 : spec_float := S754_finite false 4503599627370496 (-52).
Definition f2_0 : spec_float := S754_finite false 4503599627370496 (-51).
Definition f3_0 : spec_float := S754_finite false 6755399441055744 (-51).
Definition f4_0 : spec_float := S754_finite false 4503599627370496 (-50).
Definition f3_3 : spec_float := S754_finite false 7430939385161318 (-51).
Definition minus_999 : spec_float := S754_finite true 8787296929185792 (-43).

(** The report of the example: a test case, a control case, the column
    header and one row. *)
Definition report_example : list string :=
  ["TEST CASE: run1 (yrs 1980-2000)";
   "CONTROL CASE: ctrl1";
   "Variable Model Obs Bias RMSE";
   "TEMP 1.0 2.0 3.0 4.0"].

(** A report without a test case: the column header and one row. *)
Definition report_without_test_case : list string :=
  ["Variable Model Obs Bias RMSE";
   "TEMP 1.0 2.0 3.0 4.0"].

(** A report with a second test case that has no column header of its
    own. *)
Definition report_second_test_case : list string :=
  ["TEST CASE: run1 (yrs 1980-2000)";
   "Variable Model Obs Bias RMSE";
   "TEST CASE: run2 (yrs 2001-2010)";
   "TEMP 1.0 2.0 3.0 4.0"].

(** The locals behind the first two lines of [report_second_test_case]. *)
Definition in_first_section : locals :=
  {| test_case := "run1 "; control_case := ""; years := Some "1980-2000";
     header := Some header_columns; in_data := true; data := [];
     stdout := [] |}.

(** The report of the example with the last value spelled "-999.0". *)
Definition report_sentinel_spelling : list string :=
  ["TEST CASE: run1 (yrs 1980-2000)";
   "CONTROL CASE: ctrl1";
   "Variable Model Obs Bias RMSE";
   "TEMP 1.0 2.0 3.0 -999.0"].


(** A row of the returned frame: four strings in the index, and the flag
    and four floats in the columns. *)
Definition record_shape (record : list cell * list cell) : bool :=
  match record with
  | ([CStr _; CStr _; CStr _; CStr _],
     [CBool _; CFloat _; CFloat _; CFloat _; CFloat _]) => true
  | _ => false
  end.

(** A colormap of one colour, a registry without names and a [linspace]
    without points, to run [shifted_color_map] on. *)
Definition black : colormap :=
  fun _ => (S754_zero false, S754_zero false, S754_zero false, f1_0).

Definition no_cmap (name : string) : result colormap := Raise ValueError.

Definition no_points (start stop : py_number) (num : nat) (endpoint : bool)
  : list spec_float := [].

(** The frame of one row. *)
Definition frame_of_row (key vals : list cell) : DataFrame :=
  {| df_index := ["Run"; "Years"; "Variable"; "Description"];
     df_columns := ["Flag"; "Model"; "Obs"; "Bias"; "RMSE"];
     df_rows := [(key, vals)] |}.

(** ** read_var_info_michaels_excel *)

(** Lines 82 to 87, from [sheet] on; opening the workbook and finding the
    sheet "DATA" is outside.  A sheet is the list of its rows, which xlrd
    pads to the width of the sheet.  [V] is the type of the cell values
    and [truthy] their truth value, which [if cell.value:] tests
    ([value != ""] for text); the keys of the dictionary are compared as
    the values of [V] are. *)
Section ReadVarInfo.

Context {V : Type} `{Countable V}.
Variable truthy : V -> bool.

(** [sheet.col(colx)]: the cell at [colx] of every row; a row that has no
    such cell raises [IndexError]. *)
Definition col (sheet : list (list V)) (colx : nat) : result (list V) :=
  mapM (fun row => index row colx) sheet.

(** Lines 84 and 85: the body of the loop for the cell [value] of row [i]. *)
Definition add_entry (sheet : list (list V)) (res : gmap V V) (i : nat)
  (value : V) : result (gmap V V) :=
  if truthy value then
    do descriptions <- col sheet 2;
    do description <- index descriptions i;
    Ok (<[value := description]> res)
  else Ok res.

(** Line 83: [for i, cell in enumerate(cells)], from the index [i] on. *)
Fixpoint add_entries (sheet : list (list V)) (i : nat) (cells : list V)
  (res : gmap V V) : result (gmap V V) :=
  match cells with
  | [] => Ok res
  | value :: cells' =>
      do res' <- add_entry sheet res i value;
      add_entries sheet (S i) cells' res'
  end.

Definition read_var_info_michaels_excel (sheet : list (list V))
  : result (gmap V V) :=
  do names <- col sheet 1;
  add_entries sheet 0 names ∅.

(** What line 85 does with a pair of a name and its description. *)
Definition put_entry (res : gmap V V) (entry : V * V) : gmap V V :=
  if truthy (fst entry) then <[fst entry := snd entry]> res else res.

(** The cell at [colx] of a row holds [k]. *)
Definition cell_is (colx : nat) (k : V) (row : list V) : bool :=
  match row !! colx with
  | Some value => bool_decide (value = k)
  | None => false
  end.

(** The row has a name in column 1 that counts as true. *)
Definition has_name (row : list V) : bool :=
  match row !! 1 with
  | Some value => truthy value
  | None => false
  end.

End ReadVarInfo.

(** The truth value of a text cell. *)
Definition text_truthy (value : string) : bool := negb (String.eqb value "").

(** ** More notions of the statements *)

(** [s.split(sep)[0]]: the text before the first occurrence of [sep], all
    of [s] when there is none. *)
Definition text_before (sep s : string) : string :=
  match PyStr.partition sep s with
  | Some (a, _) => a
  | None => s
  end.

(** The string holds white space only. *)
Fixpoint blank (s : string) : bool :=
  match s with
  | "" => true
  | String c s' => PyStr.isspace c && blank s'
  end.

(** The string holds no white space. *)
Fixpoint no_space (s : string) : bool :=
  match s with
  | "" => true
  | String c s' => negb (PyStr.isspace c) && no_space s'
  end.

(** The line reaches the second branch: it is a control-case line. *)
Definition is_control_case_line (line : string) : bool :=
  negb (PyStr.contains "TEST CASE:" line)
  && PyStr.contains "CONTROL CASE:" line.

(** Two states that differ at most in [control_case] and in what was
    printed. *)
Definition same_records (st1 st2 : locals) : Prop :=
  test_case st1 = test_case st2
  /\ years st1 = years st2
  /\ header st1 = header st2
  /\ in_data st1 = in_data st2
  /\ data st1 = data st2.

(** Two outcomes of one step or of a run: the same exception, or states
    with the same records. *)
Definition same_outcome (r1 r2 : result locals) : Prop :=
  match r1, r2 with
  | Ok st1, Ok st2 => same_records st1 st2
  | Raise e1, Raise e2 => e1 = e2
  | _, _ => False
  end.

(** The frame that a call returns, without the output. *)
Definition frame_of (r : result (DataFrame * list string)) : result DataFrame :=
  do p <- r; Ok (fst p).

(** The index key and the columns of a record of nine cells. *)
Definition record_of (row : list cell) : list cell * list cell :=
  (take 4 row, drop 4 row).

(** The four channels of a colour. *)
Definition red_of (c : rgba) : spec_float := fst (fst (fst c)).
Definition green_of (c : rgba) : spec_float := snd (fst (fst c)).
Definition blue_of (c : rgba) : spec_float := snd (fst c).
Definition alpha_of (c : rgba) : spec_float := snd c.

(** The segments of one channel: at every position of [shift_index] the
    channel of the colour at the same place of [reg_index], on both
    sides. *)
Definition channel (pick_channel : rgba -> spec_float) (cmap : colormap)
  (reg_index shift_index : list spec_float) : list segment :=
  map (fun p => (snd p, pick_channel (cmap (fst p)), pick_channel (cmap (fst p))))
      (zip reg_index shift_index).

(** A [linspace] that returns [num] points, all of them [start]. *)
Definition constant_points (start stop : py_number) (num : nat)
  (endpoint : bool) : list spec_float :=
  replicate num (match start with
                 | PyFloat x => x
                 | PyNpFloat x => x
                 | PyInt z => PyFloat.of_int z
                 end).

(** The colormap that [shifted_color_map] builds from [black] and
    [constant_points] for the range from -2 to 4. *)
Definition shifted_example : LinearSegmentedColormap :=
  mkLinearSegmentedColormap "shiftedcmap"
    (fill_cdict black
       (constant_points (PyInt 0) (PyInt 1) 257 true)
       (constant_points (PyFloat (S754_zero false))
          (PyFloat (S754_finite false 6004799503160662 (-54))) 128 false
        ++ constant_points
             (PyFloat (S754_finite false 6004799503160662 (-54)))
             (PyFloat (PyFloat.of_int 1)) 129 true)).

(** A row of [data] without its description and its flag. *)
Definition without_description (row : list cell) : list cell :=
  take 3 row ++ drop 5 row.

(** A record of the frame without its description and its flag. *)
Definition record_without_description (record : list cell * list cell)
  : list cell * list cell :=
  (take 3 (fst record), drop 1 (snd record)).

(** Two states that differ at most in the descriptions and the flags of
    their records. *)
Definition same_but_descriptions (st1 st2 : locals) : Prop :=
  test_case st1 = test_case st2
  /\ control_case st1 = control_case st2
  /\ years st1 = years st2
  /\ header st1 = header st2
  /\ in_data st1 = in_data st2
  /\ stdout st1 = stdout st2
  /\ map without_description (data st1) = map without_description (data st2).

(** The entry of the argument [var_info_dict] for a name: none when the
    argument is [None] or has no such key. *)
Definition supplied_entry (var_info_dict : option (gmap string string))
  (name : string) : option string :=
  match var_info_dict with
  | Some d => d !! name
  | None => None
  end.

(** A report with a row before any test case, one of whose four tokens is
    no number. *)
Definition report_bad_token_without_test_case : list string :=
  ["Variable Model Obs Bias RMSE";
   "TEMP 1.0 2.0 n/a 4.0"].

(** A report with an empty line behind its row. *)
Definition report_with_blank_row : list string :=
  ["TEST CASE: run1 (yrs 1980-2000)";
   "Variable Model Obs Bias RMSE";
   "TEMP 1.0 2.0 3.0 4.0";
   ""].



(** A sheet of three columns: a row without a name, two rows for "TEMP",
    a row with an empty description. *)
Definition sheet_example : list (list string) :=
  [["1"; ""; "no name"];
   ["2"; "TEMP"; "old text"];
   ["3"; "TEMP"; "Temperature"];
   ["4"; "PS"; ""]].

(** The same sheet without its third column. *)
Definition sheet_narrow : list (list string) :=
  [["1"; ""]; ["2"; "TEMP"]; ["3"; "TEMP"]; ["4"; "PS"]].

(** ** Lemmas on strings *)

(** Case analysis on the results that [H] matches on, one after the other;
    the branches that raise are closed. *)
Ltac case_results H :=
  repeat match type of H with
         | match ?m with _ => _ end = _ => destruct m; try discriminate
         end.

Lemma drop_length (n : nat) (s : string) :
  String.length (PyStr.drop n s) <= String.length s.
Proof.
  revert s. induction n as [|n IH]; intros [|c s]; simpl; try lia.
  specialize (IH s). lia.
Qed.

(** A cut at a non-empty separator leaves a strictly shorter rest. *)
Lemma partition_shorter (sep s a b : string) :
  sep <> "" -> PyStr.partition sep s = Some (a, b) ->
  String.length b < String.length s.
Proof.
  intros Hsep. revert a b.
  induction s as [|c s IH]; intros a b H.
  - destruct sep as [|c' sep]; [congruence|]. simpl in H. discriminate.
  - cbn [PyStr.partition] in H.
    destruct (String.prefix sep (String c s)) eqn:Hp.
    + injection H as <- <-.
      destruct sep as [|c' sep]; [congruence|].
      simpl. pose proof (drop_length (String.length sep) s). lia.
    + destruct (PyStr.partition sep s) as [[a' b']|] eqn:Hq; [|discriminate].
      injection H as <- <-. specialize (IH _ _ eq_refl). simpl. lia.
Qed.

(** [String.length s] cuts are enough: more fuel changes nothing. *)
Lemma split_fuel_enough (sep : string) :
  sep <> "" ->
  forall fuel s, String.length s <= fuel ->
    PyStr.split_fuel fuel sep s = PyStr.split sep s.
Proof.
  intros Hsep. unfold PyStr.split.
  assert (H : forall n m s, String.length s <= n -> String.length s <= m ->
              PyStr.split_fuel n sep s = PyStr.split_fuel m sep s).
  { induction n as [|n IH]; intros m s Hn Hm.
    - destruct s; [|simpl in Hn; lia].
      destruct m; simpl; [reflexivity|].
      destruct sep; [congruence|]. reflexivity.
    - destruct m as [|m].
      + destruct s; [|simpl in Hm; lia]. simpl.
        destruct sep; [congruence|]. reflexivity.
      + simpl. destruct (PyStr.partition sep s) as [[a b]|] eqn:Hp; [|reflexivity].
        f_equal. pose proof (partition_shorter _ _ _ _ Hsep Hp).
        apply IH; lia. }
  intros fuel s Hlen. apply H; lia.
Qed.

(** [s.split(sep)] cuts at the first occurrence and goes on behind it. *)
Lemma split_cons (sep s a b : string) :
  sep <> "" -> PyStr.partition sep s = Some (a, b) ->
  PyStr.split sep s = a :: PyStr.split sep b.
Proof.
  intros Hsep Hp. pose proof (partition_shorter _ _ _ _ Hsep Hp) as Hlt.
  unfold PyStr.split at 1.
  destruct (String.length s) as [|n] eqn:Hn; [lia|].
  simpl. rewrite Hp. f_equal. apply split_fuel_enough; [assumption|lia].
Qed.

Lemma split_absent (sep s : string) :
  PyStr.contains sep s = false -> PyStr.split sep s = [s].
Proof.
  unfold PyStr.contains, PyStr.split. intros H.
  destruct (PyStr.partition sep s) eqn:Hp; [discriminate|].
  destruct (String.length s); simpl; [reflexivity|]. now rewrite Hp.
Qed.

Lemma contains_partition (sep s : string) :
  PyStr.contains sep s = true ->
  exists a b, PyStr.partition sep s = Some (a, b).
Proof.
  unfold PyStr.contains. destruct (PyStr.partition sep s) as [[a b]|]; [eauto|discriminate].
Qed.

(** ** Lemmas on the loop *)

Lemma run_lines_app d verbose st (l1 l2 : list string) :
  run_lines d verbose st (l1 ++ l2) =
  (do st' <- run_lines d verbose st l1; run_lines d verbose st' l2).
Proof.
  revert st. induction l1 as [|line l1 IH]; intros st; simpl; [reflexivity|].
  destruct (step d verbose st line); simpl; [apply IH|reflexivity].
Qed.

(** What the loop over [problem_vars] matches does not depend on
    [verbose] or on the output so far. *)
Lemma find_problem_var_matched verbose line out :
  fst (find_problem_var verbose line out) = fst (find_problem_var false line []).
Proof.
  unfold find_problem_var, problem_vars. simpl.
  destruct (PyStr.contains "FSNTOAC_CERES-EBAF" line),
           (PyStr.contains "FSNTOA_CERES-EBAF" line); reflexivity.
Qed.

(** Nothing is printed when [verbose] is off. *)
Lemma row_output_quiet line out : row_output false line out = out.
Proof.
  unfold row_output, find_problem_var, problem_vars. simpl.
  destruct (PyStr.contains "FSNTOAC_CERES-EBAF" line),
           (PyStr.contains "FSNTOA_CERES-EBAF" line); reflexivity.
Qed.



(** A candidate row is handled by [data_line]. *)
Lemma step_candidate d verbose st line :
  is_candidate_row st line = true ->
  step d verbose st line = data_line d verbose st line.
Proof.
  unfold is_candidate_row, step. intros H.
  destruct (PyStr.contains "TEST CASE:" line); [discriminate|].
  destruct (PyStr.contains "CONTROL CASE:" line); [discriminate|].
  destruct (PyStr.contains "Variable" line); [discriminate|].
  destruct (in_data st); [reflexivity|discriminate].
Qed.

(** [data_line] in terms of [row_tokens] and [row_output]. *)
Lemma data_line_unfold d verbose st line :
  data_line d verbose st line =
  (do row <- row_tokens line;
   if (length (snd row) =? 4)%nat then
     do line_data <- build_row d st (fst row) (snd row);
     Ok (append_data line_data (set_stdout (row_output verbose line (stdout st)) st))
   else Ok (set_stdout (row_output verbose line (stdout st)) st)).
Proof.
  unfold data_line, row_tokens, row_output.
  pose proof (find_problem_var_matched verbose line (stdout st)) as Hm.
  destruct (find_problem_var verbose line (stdout st)) as [matched out].
  simpl in Hm. rewrite <- Hm. simpl.
  destruct (split_row matched line) as [[name toks]|e]; reflexivity.
Qed.

Lemma convert_parse (tok : string) :
  convert tok = match PyFloat.parse tok with
                | Some x => Ok (sentinel x)
                | None => Raise ValueError
                end.
Proof. unfold convert, float. destruct (PyFloat.parse tok); reflexivity. Qed.

(** The conversion loop raises nothing but [ValueError]. *)
Lemma mapM_convert_cases (toks : list string) :
  (exists vals, mapM convert toks = Ok vals
                /\ Forall2 (fun tok val =>
                     exists x, PyFloat.parse tok = Some x /\ val = sentinel x)
                   toks vals)
  \/ (mapM convert toks = Raise ValueError
      /\ Exists (fun tok => PyFloat.parse tok = None) toks).
Proof.
  induction toks as [|tok toks IH]; simpl.
  - left. exists []. split; [reflexivity|constructor].
  - rewrite convert_parse.
    destruct (PyFloat.parse tok) as [x|] eqn:Hx; simpl.
    + destruct IH as [(vals & -> & Hall)|[-> Hex]]; simpl.
      * left. eexists. split; [reflexivity|]. constructor; [|assumption].
        exists x. split; [assumption|reflexivity].
      * right. split; [reflexivity|]. now apply Exists_cons_tl.
    + right. split; [reflexivity|]. now apply Exists_cons_hd.
Qed.

Lemma mapM_convert_ok (toks : list string) (xs : list spec_float) :
  Forall2 (fun tok x => PyFloat.parse tok = Some x) toks xs ->
  mapM convert toks = Ok (map sentinel xs).
Proof.
  induction 1 as [|tok x toks xs Hx _ IH]; simpl; [reflexivity|].
  rewrite convert_parse, Hx. simpl. rewrite IH. reflexivity.
Qed.

Lemma mapM_convert_bad (toks : list string) :
  Exists (fun tok => PyFloat.parse tok = None) toks ->
  mapM convert toks = Raise ValueError.
Proof.
  intros Hex. destruct (mapM_convert_cases toks) as [(vals & _ & Hall)|[H _]];
    [|assumption].
  exfalso. induction Hall as [|tok val toks vals (x & Hx & _) _ IH].
  - inversion Hex.
  - inversion Hex; subst; [congruence|auto].
Qed.

(** [build_row] when [years] is bound. *)
Lemma build_row_bound d st name toks y :
  years st = Some y ->
  build_row d st name toks =
  (do vals <- mapM convert toks;
   Ok ([CStr (test_case st); CStr y; CStr name;
        CStr (fst (describe d name)); CBool (snd (describe d name))]
       ++ map CFloat vals)).
Proof.
  intros Hy. unfold build_row. rewrite Hy. simpl.
  destruct (describe d name) as [var_info flag]. reflexivity.
Qed.

Lemma build_row_unbound d st name toks :
  years st = None ->
  build_row d st name toks = Raise (UnboundLocalError "years").
Proof. intros Hy. unfold build_row. now rewrite Hy. Qed.

(** The three outcomes of a candidate row. *)
Lemma data_line_emits d verbose st line name toks y xs :
  row_tokens line = Ok (name, toks) ->
  length toks = 4 ->
  years st = Some y ->
  Forall2 (fun tok x => PyFloat.parse tok = Some x) toks xs ->
  data_line d verbose st line =
  Ok (append_data
        ([CStr (test_case st); CStr y; CStr name;
          CStr (fst (describe d name)); CBool (snd (describe d name))]
         ++ map CFloat (map sentinel xs))
        (set_stdout (row_output verbose line (stdout st)) st)).
Proof.
  intros Hrow Hlen Hy Hxs. rewrite data_line_unfold, Hrow. simpl.
  rewrite Hlen. simpl. rewrite (build_row_bound _ _ _ _ _ Hy).
  rewrite (mapM_convert_ok _ _ Hxs). reflexivity.
Qed.

Lemma data_line_drops d verbose st line name toks :
  row_tokens line = Ok (name, toks) ->
  length toks <> 4 ->
  data_line d verbose st line =
  Ok (set_stdout (row_output verbose line (stdout st)) st).
Proof.
  intros Hrow Hlen. rewrite data_line_unfold, Hrow. simpl.
  destruct (Nat.eqb_spec (length toks) 4); [contradiction|reflexivity].
Qed.

Lemma data_line_bad_token d verbose st line name toks :
  row_tokens line = Ok (name, toks) ->
  length toks = 4 ->
  Exists (fun tok => PyFloat.parse tok = None) toks ->
  data_line d verbose st line =
  Raise (match years st with
         | Some _ => ValueError
         | None => UnboundLocalError "years"
         end).
Proof.
  intros Hrow Hlen Hbad. rewrite data_line_unfold, Hrow. simpl.
  rewrite Hlen. simpl. destruct (years st) as [y|] eqn:Hy.
  - rewrite (build_row_bound _ _ _ _ _ Hy), (mapM_convert_bad _ Hbad).
    reflexivity.
  - now rewrite build_row_unbound.
Qed.

(** Every successful candidate row is one of the first two outcomes. *)
Lemma data_line_inv d verbose st line st' :
  data_line d verbose st line = Ok st' ->
  exists name toks,
    row_tokens line = Ok (name, toks)
    /\ ((length toks <> 4
         /\ st' = set_stdout (row_output verbose line (stdout st)) st)
        \/ (length toks = 4
            /\ exists y xs,
                 years st = Some y
                 /\ Forall2 (fun tok x => PyFloat.parse tok = Some x) toks xs
                 /\ st' = append_data
                            ([CStr (test_case st); CStr y; CStr name;
                              CStr (fst (describe d name));
                              CBool (snd (describe d name))]
                             ++ map CFloat (map sentinel xs))
                            (set_stdout (row_output verbose line (stdout st)) st))).
Proof.
  rewrite data_line_unfold.
  destruct (row_tokens line) as [[name toks]|e] eqn:Hrow; simpl; [|discriminate].
  intros H. exists name, toks. split; [reflexivity|].
  destruct (Nat.eqb_spec (length toks) 4) as [Hlen|Hlen].
  - right. split; [assumption|].
    destruct (years st) as [y|] eqn:Hy;
      [|rewrite build_row_unbound in H by assumption; discriminate].
    rewrite (build_row_bound _ _ _ _ _ Hy) in H.
    destruct (mapM_convert_cases toks) as [(vals & Hv & Hall)|[Hv _]];
      rewrite Hv in H; simpl in H; [|discriminate].
    injection H as <-.
    assert (Hxs : exists xs, Forall2 (fun tok x => PyFloat.parse tok = Some x) toks xs
                             /\ vals = map sentinel xs).
    { clear -Hall. induction Hall as [|tok val toks vals (x & Hx & ->) _ (xs & IH & ->)].
      - exists []. split; [constructor|reflexivity].
      - exists (x :: xs). split; [now constructor|reflexivity]. }
    destruct Hxs as (xs & Hxs & ->). exists y, xs. auto.
  - left. injection H as <-. auto.
Qed.

(** A step leaves [data] alone or appends the row of a candidate line. *)
Lemma step_data d verbose st line st' :
  step d verbose st line = Ok st' ->
  data st' = data st
  \/ (is_candidate_row st line = true
      /\ exists name toks y xs,
           row_tokens line = Ok (name, toks)
           /\ length toks = 4
           /\ years st = Some y
           /\ Forall2 (fun tok x => PyFloat.parse tok = Some x) toks xs
           /\ data st' = data st ++
                [[CStr (test_case st); CStr y; CStr name;
                  CStr (fst (describe d name)); CBool (snd (describe d name))]
                 ++ map CFloat (map sentinel xs)]).
Proof.
  unfold step, is_candidate_row.
  destruct (PyStr.contains "TEST CASE:" line).
  { unfold test_case_line, bind. intros H. case_results H.
    injection H as <-. left. reflexivity. }
  destruct (PyStr.contains "CONTROL CASE:" line).
  { unfold control_case_line, bind. intros H.
    destruct (index _ 1); [|discriminate]. injection H as <-. now left. }
  destruct (PyStr.contains "Variable" line).
  { intros [= <-]. now left. }
  destruct (in_data st); [|intros [= <-]; now left].
  intros H. apply data_line_inv in H.
  destruct H as (name & toks & Hrow & [[Hlen ->]|(Hlen & y & xs & Hy & Hxs & ->)]).
  - now left.
  - right. split; [reflexivity|]. exists name, toks, y, xs. auto.
Qed.

Lemma read_file_custom_raise lines dict verbose e :
  run_lines (normalize_dict dict) verbose initial lines = Raise e ->
  read_file_custom lines dict verbose = Raise e.
Proof. intros H. unfold read_file_custom. now rewrite H. Qed.

(** ** The example report *)

(** C1, on the code: for the report of the example the parser returns one
    record with years "1980-2000", variable "TEMP" and the values 1.0, 2.0,
    3.0 and 4.0, but its run is "run1 " with the blank that stands before
    "(yrs": line 121 strips the text behind the marker before it is cut at
    "(yrs ", and the cut piece is not stripped again. *)
Theorem example_report_run_keeps_blank (verbose : bool) :
  exists out,
    read_file_custom report_example None verbose =
    Ok (frame_of_row
          [CStr "run1 "; CStr "1980-2000"; CStr "TEMP"; CStr ""]
          [CBool false; CFloat f1_0; CFloat f2_0; CFloat f3_0; CFloat f4_0],
        out).
Proof. destruct verbose; eexists; vm_compute; reflexivity. Qed.

(** C3, on the code: a row with four numeric tokens that is reached before
    any "TEST CASE:" line makes the call fail: line 146 reads [years],
    which has no value yet, and no record with empty run and years is
    built. *)
Theorem row_before_test_case_fails
  (dict : option (gmap string string)) (verbose : bool) :
  read_file_custom report_without_test_case dict verbose =
  Raise (UnboundLocalError "years").
Proof.
  apply read_file_custom_raise. unfold report_without_test_case.
  cbn [run_lines].
  replace (step (normalize_dict dict) verbose initial "Variable Model Obs Bias RMSE")
    with (Ok (set_in_data true initial)) by (vm_compute; reflexivity).
  cbn [bind]. rewrite step_candidate by (vm_compute; reflexivity).
  rewrite (data_line_unfold _ _ _ _).
  replace (row_tokens "TEMP 1.0 2.0 3.0 4.0")
    with (Ok ("TEMP", ["1.0"; "2.0"; "3.0"; "4.0"]))
    by (vm_compute; reflexivity).
  reflexivity.
Qed.

(** ** The state across the lines *)

Lemma test_case_line_locals st line st' :
  test_case_line st line = Ok st' ->
  in_data st' = in_data st /\ data st' = data st
  /\ is_bound (years st') = true /\ header st' = Some header_columns.
Proof.
  unfold test_case_line, bind. intros H. case_results H.
  injection H as <-. auto.
Qed.

(** What one step does to [in_data], [years] and [header]. *)
Lemma step_flags d verbose st line st' :
  step d verbose st line = Ok st' ->
  in_data st' = in_data st || is_column_header line
  /\ is_bound (years st') = is_bound (years st) || is_test_case_header line
  /\ header st' = (if is_test_case_header line then Some header_columns
                   else header st).
Proof.
  unfold step, is_column_header, is_test_case_header.
  destruct (PyStr.contains "TEST CASE:" line).
  { intros H. apply test_case_line_locals in H as (-> & _ & -> & ->).
    rewrite !orb_true_r, orb_false_r. auto. }
  destruct (PyStr.contains "CONTROL CASE:" line).
  { unfold control_case_line, bind. destruct (index _ 1); [|discriminate].
    intros [= <-]. simpl. rewrite !orb_false_r. auto. }
  destruct (PyStr.contains "Variable" line).
  { intros [= <-]. simpl. rewrite orb_true_r, orb_false_r. auto. }
  simpl. rewrite !orb_false_r.
  destruct (in_data st) eqn:Hin; [|intros [= <-]; simpl; auto].
  intros H. apply data_line_inv in H.
  destruct H as (name & toks & _ & [[_ ->]|(_ & y & xs & _ & _ & ->)]);
    simpl; auto.
Qed.

Lemma run_lines_flags d verbose lines : forall st st',
  run_lines d verbose st lines = Ok st' ->
  in_data st' = in_data st || existsb is_column_header lines
  /\ is_bound (years st') = is_bound (years st) || existsb is_test_case_header lines
  /\ header st' = (if existsb is_test_case_header lines
                   then Some header_columns else header st).
Proof.
  induction lines as [|line lines IH]; intros st st' H; simpl in H.
  - injection H as <-. simpl. rewrite !orb_false_r. auto.
  - destruct (step d verbose st line) as [st1|e] eqn:Hstep; [|discriminate].
    simpl in H. apply IH in H as (-> & -> & ->).
    apply step_flags in Hstep as (-> & -> & ->). simpl.
    rewrite !orb_assoc. repeat split.
    destruct (is_test_case_header line), (existsb is_test_case_header lines);
      reflexivity.
Qed.

(** C2, refuted as stated: in the locals behind the first test case and its
    column header, the step for a second "TEST CASE:" line succeeds and
    leaves [in_data] set, the next line is a candidate row, and the call
    returns a record for it under the second run. *)
Lemma second_test_case_stays_in_data :
  exists st',
    run_lines ∅ false initial (take 2 report_second_test_case) = Ok in_first_section
    /\ is_test_case_header "TEST CASE: run2 (yrs 2001-2010)" = true
    /\ step ∅ false in_first_section "TEST CASE: run2 (yrs 2001-2010)" = Ok st'
    /\ in_data st' = true
    /\ is_candidate_row st' "TEMP 1.0 2.0 3.0 4.0" = true
    /\ read_file_custom report_second_test_case None false =
       Ok (frame_of_row
             [CStr "run2 "; CStr "2001-2010"; CStr "TEMP"; CStr ""]
             [CBool false; CFloat f1_0; CFloat f2_0; CFloat f3_0; CFloat f4_0],
           []).
Proof.
  eexists. split; [vm_compute; reflexivity|].
  split; [vm_compute; reflexivity|].
  split; [vm_compute; reflexivity|].
  repeat split; vm_compute; reflexivity.
Qed.

(** C2, as the code has it: after any lines that were processed without
    an exception, [in_data] tells whether one of them was a column header
    (a line with "Variable" and neither "TEST CASE:" nor "CONTROL CASE:"),
    and the step for a line with "TEST CASE:" leaves [in_data] and [data]
    as they are.  So [in_data] is never set back, and the lines behind a
    later test-case header are candidate rows. *)
Theorem in_data_since_first_column_header
  d verbose (lines : list string) (st : locals) :
  run_lines d verbose initial lines = Ok st ->
  in_data st = existsb is_column_header lines
  /\ forall line st',
       is_test_case_header line = true ->
       step d verbose st line = Ok st' ->
       in_data st' = in_data st /\ data st' = data st.
Proof.
  intros Hrun. split.
  - apply run_lines_flags in Hrun as (-> & _). reflexivity.
  - unfold is_test_case_header, step. intros line st' ->.
    intros H. apply test_case_line_locals in H. tauto.
Qed.

Lemma in_data_since_first_column_header_witness :
  run_lines ∅ false initial (take 2 report_second_test_case) = Ok in_first_section
  /\ (in_data in_first_section
      = existsb is_column_header (take 2 report_second_test_case)
      /\ forall line st',
           is_test_case_header line = true ->
           step ∅ false in_first_section line = Ok st' ->
           in_data st' = in_data in_first_section
           /\ data st' = data in_first_section).
Proof.
  split; [vm_compute; reflexivity|].
  apply (in_data_since_first_column_header ∅ false
           (take 2 report_second_test_case) in_first_section).
  vm_compute; reflexivity.
Defined.

(** ** Rows with a token that is no number *)

(** Behind a test-case header: when the lines before a candidate row were
    processed without an exception and hold a test-case header, and the
    row has exactly four tokens behind its variable name of which one is
    no float literal, the whole call raises [ValueError], whatever follows
    the row. *)
Theorem bad_numeric_token_is_fatal
  dict verbose (before after : list string) (line : string)
  (st : locals) (name : string) (toks : list string) :
  run_lines (normalize_dict dict) verbose initial before = Ok st ->
  existsb is_test_case_header before = true ->
  is_candidate_row st line = true ->
  row_tokens line = Ok (name, toks) ->
  length toks = 4 ->
  Exists (fun tok => PyFloat.parse tok = None) toks ->
  read_file_custom (before ++ line :: after) dict verbose = Raise ValueError.
Proof.
  intros Hrun Htc Hcand Hrow Hlen Hbad.
  apply read_file_custom_raise.
  rewrite run_lines_app, Hrun. cbn [bind run_lines].
  rewrite (step_candidate _ _ _ _ Hcand).
  rewrite (data_line_bad_token _ _ _ _ _ _ Hrow Hlen Hbad).
  apply run_lines_flags in Hrun as (_ & Hy & _). rewrite Htc in Hy.
  destruct (years st); [reflexivity|discriminate].
Qed.

Lemma bad_numeric_token_is_fatal_witness :
  run_lines (normalize_dict None) false initial (take 3 report_example)
  = Ok (set_control_case "ctrl1" in_first_section)
  /\ existsb is_test_case_header (take 3 report_example) = true
  /\ is_candidate_row (set_control_case "ctrl1" in_first_section)
       "TEMP 1.0 2.0 n/a 4.0" = true
  /\ row_tokens "TEMP 1.0 2.0 n/a 4.0" = Ok ("TEMP", ["1.0"; "2.0"; "n/a"; "4.0"])
  /\ read_file_custom
       (take 3 report_example ++ "TEMP 1.0 2.0 n/a 4.0" :: ["PS 1 2 3 4"])
       None false = Raise ValueError.
Proof.
  split; [vm_compute; reflexivity|].
  split; [vm_compute; reflexivity|].
  split; [vm_compute; reflexivity|].
  split; [vm_compute; reflexivity|].
  apply (bad_numeric_token_is_fatal None false (take 3 report_example)
           ["PS 1 2 3 4"] "TEMP 1.0 2.0 n/a 4.0"
           (set_control_case "ctrl1" in_first_section)
           "TEMP" ["1.0"; "2.0"; "n/a"; "4.0"]).
  - vm_compute; reflexivity.
  - vm_compute; reflexivity.
  - vm_compute; reflexivity.
  - vm_compute; reflexivity.
  - reflexivity.
  - apply Exists_cons_tl, Exists_cons_tl, Exists_cons_hd.
    vm_compute; reflexivity.
Defined.

(** ** Reports without a test case *)

(** C10: when no line holds "TEST CASE:", the call raises an exception and
    returns no frame, for the empty input too: [years] and [header] are
    never bound, so a row with four tokens fails on [years] (line 146) and
    the end of the function fails on [header] (line 167), unless a
    candidate line without any token has raised [IndexError] before
    (line 144). *)
Theorem no_test_case_no_frame dict verbose (lines : list string) :
  Forall (fun line => PyStr.contains "TEST CASE:" line = false) lines ->
  exists e,
    read_file_custom lines dict verbose = Raise e
    /\ (e = UnboundLocalError "years" \/ e = UnboundLocalError "header"
        \/ e = IndexError).
Proof.
  intros Hno. unfold read_file_custom.
  destruct (run_lines (normalize_dict dict) verbose initial lines)
    as [st|e] eqn:Hrun.
  - apply run_lines_flags in Hrun as (_ & _ & Hh).
    assert (Hex : existsb is_test_case_header lines = false).
    { clear -Hno. induction Hno as [|line lines Hl _ IH]; simpl; [reflexivity|].
      unfold is_test_case_header at 1. now rewrite Hl. }
    rewrite Hex in Hh. simpl in Hh. cbn [bind]. rewrite Hh. simpl. eauto.
  - exists e. split; [reflexivity|].
    assert (Hgen : forall st, years st = None ->
              run_lines (normalize_dict dict) verbose st lines = Raise e ->
              e = UnboundLocalError "years" \/ e = UnboundLocalError "header"
              \/ e = IndexError).
    { clear Hrun. induction Hno as [|line lines Hl _ IH]; intros st Hy H;
        simpl in H; [discriminate|].
      destruct (step (normalize_dict dict) verbose st line) as [st1|e1] eqn:Hstep;
        simpl in H.
      - apply (IH st1); [|assumption].
        apply step_flags in Hstep as (_ & Hb & _).
        unfold is_test_case_header in Hb. rewrite Hy, Hl in Hb.
        destruct (years st1); [discriminate|reflexivity].
      - injection H as <-. revert Hstep. unfold step. rewrite Hl.
        destruct (PyStr.contains "CONTROL CASE:" line).
        { unfold control_case_line, index, bind.
          destruct (_ !! 1); [discriminate|]. intros [= <-]. auto. }
        destruct (PyStr.contains "Variable" line); [discriminate|].
        destruct (in_data st); [|discriminate].
        rewrite data_line_unfold.
        destruct (row_tokens line) as [[name toks]|e2] eqn:Hrow; simpl.
        + destruct (length toks =? 4)%nat; [|discriminate].
          rewrite build_row_unbound by assumption. intros [= <-]. auto.
        + intros [= <-]. revert Hrow. unfold row_tokens, split_row, index, bind.
          destruct (fst _) as [[spl v]|].
          * destruct (spl !! 1); [discriminate|]. intros [= <-]. auto.
          * destruct (PyStr.split_ws line); [|discriminate]. intros [= <-]. auto. }
    apply (Hgen initial); [reflexivity|assumption].
Qed.

Lemma no_test_case_no_frame_witness :
  Forall (fun line => PyStr.contains "TEST CASE:" line = false)
         ["CONTROL CASE: ctrl1"; "Variable Model Obs Bias RMSE"; "TEMP 1.0 2.0 3.0"]
  /\ exists e,
       read_file_custom
         ["CONTROL CASE: ctrl1"; "Variable Model Obs Bias RMSE"; "TEMP 1.0 2.0 3.0"]
         None false = Raise e
       /\ (e = UnboundLocalError "years" \/ e = UnboundLocalError "header"
           \/ e = IndexError).
Proof.
  assert (H : Forall (fun line => PyStr.contains "TEST CASE:" line = false)
                ["CONTROL CASE: ctrl1"; "Variable Model Obs Bias RMSE";
                 "TEMP 1.0 2.0 3.0"]).
  { repeat constructor. }
  split; [exact H|].
  exact (no_test_case_no_frame None false _ H).
Defined.

(** ** Emitted records *)

(** The step that appends [row] is the step of a candidate line with four
    float literals behind the variable name, under a bound [years]. *)
Lemma step_emitted d verbose st line st' (row : list cell) :
  step d verbose st line = Ok st' ->
  data st' = data st ++ [row] ->
  is_candidate_row st line = true
  /\ exists name toks y xs,
       row_tokens line = Ok (name, toks)
       /\ length toks = 4
       /\ years st = Some y
       /\ Forall2 (fun tok x => PyFloat.parse tok = Some x) toks xs
       /\ row = [CStr (test_case st); CStr y; CStr name;
                 CStr (fst (describe d name)); CBool (snd (describe d name))]
                ++ map CFloat (map sentinel xs).
Proof.
  intros Hstep Hdata. apply step_data in Hstep as [Hsame|(Hcand & H)].
  - rewrite Hsame in Hdata. apply (f_equal length) in Hdata.
    rewrite length_app in Hdata. simpl in Hdata. lia.
  - split; [assumption|].
    destruct H as (name & toks & y & xs & Hrow & Hlen & Hy & Hxs & Hd).
    rewrite Hdata in Hd. apply app_inj_tail in Hd as [_ ->].
    exists name, toks, y, xs. auto.
Qed.

(** [-999.0] is the one float that equals the integer -999. *)
Lemma eq_int_minus_999 (x : spec_float) :
  PyFloat.eq_int x (-999) = true <-> x = minus_999.
Proof.
  unfold PyFloat.eq_int.
  replace (PyFloat.of_int (-999)) with minus_999 by (vm_compute; reflexivity).
  split; [|intros ->; vm_compute; reflexivity].
  unfold minus_999, SFeqb, SFcompare.
  destruct x as [s|s| |s m e]; try discriminate;
    try (destruct s; discriminate).
  destruct s; [|discriminate].
  destruct (Z.compare_spec e (-43)) as [->| |]; try discriminate.
  rewrite Pos.compare_cont_spec.
  destruct (Pos.compare_spec m 8787296929185792) as [->| |];
    try discriminate.
  reflexivity.
Qed.

(** C5, refuted as stated: the token "-999.0" is not the string "-999" and
    parses to the float -999.0, yet its value in the record is NaN and not
    the parsed float. *)
Lemma sentinel_is_by_value_not_by_spelling :
  "-999.0" <> "-999"
  /\ PyFloat.parse "-999.0" = Some minus_999
  /\ convert "-999.0" = Ok S754_nan
  /\ S754_nan <> minus_999
  /\ read_file_custom report_sentinel_spelling None false =
     Ok (frame_of_row
           [CStr "run1 "; CStr "1980-2000"; CStr "TEMP"; CStr ""]
           [CBool false; CFloat f1_0; CFloat f2_0; CFloat f3_0; CFloat S754_nan],
         []).
Proof.
  split; [discriminate|].
  split; [vm_compute; reflexivity|].
  split; [vm_compute; reflexivity|].
  split; [discriminate|].
  vm_compute; reflexivity.
Qed.

(** C5, as the code has it: a candidate row under a test case whose four
    tokens are float literals appends one record, and each of its four
    values comes from the float parsed from the token at its place: it is
    NaN when that float equals -999 (for the token "-999" as for "-999.0"
    or "-9.99e2"), and the parsed float itself otherwise. *)
Theorem values_are_parsed_floats_but_minus_999
  d verbose (st : locals) (line y name : string)
  (toks : list string) (xs : list spec_float) :
  is_candidate_row st line = true ->
  years st = Some y ->
  row_tokens line = Ok (name, toks) ->
  length toks = 4 ->
  Forall2 (fun tok x => PyFloat.parse tok = Some x) toks xs ->
  (exists row,
     step d verbose st line =
       Ok (append_data row (set_stdout (row_output verbose line (stdout st)) st))
     /\ take 3 row = [CStr (test_case st); CStr y; CStr name]
     /\ drop 5 row =
        map (fun x => CFloat (if PyFloat.eq_int x (-999) then S754_nan else x)) xs)
  /\ forall x, PyFloat.eq_int x (-999) = true <-> x = minus_999.
Proof.
  intros Hcand Hy Hrow Hlen Hxs. split; [|apply eq_int_minus_999].
  eexists. split; [|split].
  - rewrite (step_candidate _ _ _ _ Hcand).
    exact (data_line_emits _ _ _ _ _ _ _ _ Hrow Hlen Hy Hxs).
  - reflexivity.
  - change (drop 5 (?a ++ ?b)) with b. rewrite map_map. reflexivity.
Qed.

Lemma values_are_parsed_floats_but_minus_999_witness :
  is_candidate_row in_first_section "TEMP 1.0 -9.99e2 3.3 -999" = true
  /\ years in_first_section = Some "1980-2000"
  /\ row_tokens "TEMP 1.0 -9.99e2 3.3 -999"
     = Ok ("TEMP", ["1.0"; "-9.99e2"; "3.3"; "-999"])
  /\ length ["1.0"; "-9.99e2"; "3.3"; "-999"] = 4
  /\ Forall2 (fun tok x => PyFloat.parse tok = Some x)
       ["1.0"; "-9.99e2"; "3.3"; "-999"] [f1_0; minus_999; f3_3; minus_999]
  /\ ((exists row,
         step ∅ false in_first_section "TEMP 1.0 -9.99e2 3.3 -999" =
           Ok (append_data row
                 (set_stdout
                    (row_output false "TEMP 1.0 -9.99e2 3.3 -999"
                       (stdout in_first_section))
                    in_first_section))
         /\ take 3 row
            = [CStr (test_case in_first_section); CStr "1980-2000"; CStr "TEMP"]
         /\ drop 5 row =
            map (fun x => CFloat (if PyFloat.eq_int x (-999)
                                  then S754_nan else x))
                [f1_0; minus_999; f3_3; minus_999])
      /\ forall x, PyFloat.eq_int x (-999) = true <-> x = minus_999).
Proof.
  assert (Hxs : Forall2 (fun tok x => PyFloat.parse tok = Some x)
                  ["1.0"; "-9.99e2"; "3.3"; "-999"]
                  [f1_0; minus_999; f3_3; minus_999]).
  { repeat constructor. }
  split; [vm_compute; reflexivity|].
  split; [reflexivity|].
  split; [vm_compute; reflexivity|].
  split; [reflexivity|].
  split; [exact Hxs|].
  apply (values_are_parsed_floats_but_minus_999 ∅ false in_first_section
           "TEMP 1.0 -9.99e2 3.3 -999" "1980-2000" "TEMP"
           ["1.0"; "-9.99e2"; "3.3"; "-999"]
           [f1_0; minus_999; f3_3; minus_999]).
  - vm_compute; reflexivity.
  - reflexivity.
  - vm_compute; reflexivity.
  - reflexivity.
  - exact Hxs.
Defined.

(** ** Problem variables *)

(** ** Rows without four tokens, and the shape of the records *)

Lemma step_shape d verbose st line st' :
  step d verbose st line = Ok st' ->
  Forall (fun row => row_shape row = true) (data st) ->
  Forall (fun row => row_shape row = true) (data st').
Proof.
  intros Hstep Hall.
  apply step_data in Hstep
    as [->|(_ & name & toks & y & xs & _ & Hlen & _ & Hxs & ->)];
    [assumption|].
  apply Forall_app. split; [assumption|]. constructor; [|constructor].
  apply Forall2_length in Hxs. rewrite Hlen in Hxs.
  destruct xs as [|x1 [|x2 [|x3 [|x4 [|x5 xs]]]]]; try discriminate.
  reflexivity.
Qed.

Lemma run_lines_shape d verbose lines : forall st st',
  run_lines d verbose st lines = Ok st' ->
  Forall (fun row => row_shape row = true) (data st) ->
  Forall (fun row => row_shape row = true) (data st').
Proof.
  induction lines as [|line lines IH]; intros st st' H Hall; simpl in H.
  - now injection H as <-.
  - destruct (step d verbose st line) as [st1|e] eqn:Hstep; [|discriminate].
    apply (IH st1); [assumption|]. eapply step_shape; eassumption.
Qed.

(** The frame of rows of nine cells under the nine column names. *)
Lemma set_index_shape (rows : list (list cell)) (df : DataFrame) :
  Forall (fun row => row_shape row = true) rows ->
  set_index (header_columns, rows) index_keys = Ok df ->
  Forall (fun record => record_shape record = true) (df_rows df).
Proof.
  intros Hall H. cbv [set_index header_columns index_keys] in H.
  simpl in H. injection H as <-. simpl.
  apply Forall_map. eapply Forall_impl; [exact Hall|].
  intros row Hrow. unfold row_shape in Hrow.
  repeat match type of Hrow with
         | match ?x with _ => _ end = true =>
             destruct x; try discriminate Hrow
         end.
  reflexivity.
Qed.

Lemma read_file_custom_shape lines dict verbose df out :
  read_file_custom lines dict verbose = Ok (df, out) ->
  Forall (fun record => record_shape record = true) (df_rows df).
Proof.
  unfold read_file_custom.
  destruct (run_lines (normalize_dict dict) verbose initial lines)
    as [st|e] eqn:Hrun; [|discriminate].
  cbn [bind].
  assert (Hall : Forall (fun row => row_shape row = true) (data st)).
  { apply (run_lines_shape _ _ _ _ _ Hrun). constructor. }
  apply run_lines_flags in Hrun as (_ & _ & Hh).
  destruct (existsb is_test_case_header lines);
    rewrite Hh; simpl; [|discriminate].
  unfold make_frame.
  destruct (forallb _ (data st)); [|discriminate]. cbn [bind].
  destruct (set_index (header_columns, data st) index_keys) as [df'|e] eqn:Hset;
    [|discriminate].
  cbn [bind]. intros [= <- _]. eapply set_index_shape; eassumption.
Qed.

(** A candidate row with a variable name and a number of tokens behind it
    other than four is dropped: the step raises nothing and changes no
    local variable (it only prints the name of a problem variable when
    [verbose] is set), so no record is appended.  And every record of a
    frame that the call returns has the flag and exactly four floats. *)
Theorem short_row_is_dropped
  d verbose (st : locals) (line name : string) (toks : list string)
  (lines : list string) dict (df : DataFrame) (out : list string) :
  is_candidate_row st line = true ->
  row_tokens line = Ok (name, toks) ->
  length toks <> 4 ->
  read_file_custom lines dict verbose = Ok (df, out) ->
  step d verbose st line =
    Ok (set_stdout (row_output verbose line (stdout st)) st)
  /\ data (set_stdout (row_output verbose line (stdout st)) st) = data st
  /\ (verbose = false ->
      set_stdout (row_output verbose line (stdout st)) st = st)
  /\ Forall (fun record => record_shape record = true) (df_rows df).
Proof.
  intros Hcand Hrow Hlen Hcall.
  split; [|split; [reflexivity|split]].
  - rewrite (step_candidate _ _ _ _ Hcand).
    exact (data_line_drops _ _ _ _ _ _ Hrow Hlen).
  - intros ->. rewrite row_output_quiet. destruct st; reflexivity.
  - eapply read_file_custom_shape; eassumption.
Qed.

Lemma short_row_is_dropped_witness :
  is_candidate_row in_first_section "TEMP 1.0 2.0 3.0" = true
  /\ row_tokens "TEMP 1.0 2.0 3.0" = Ok ("TEMP", ["1.0"; "2.0"; "3.0"])
  /\ length ["1.0"; "2.0"; "3.0"] <> 4
  /\ read_file_custom report_example None false
     = Ok (frame_of_row
             [CStr "run1 "; CStr "1980-2000"; CStr "TEMP"; CStr ""]
             [CBool false; CFloat f1_0; CFloat f2_0; CFloat f3_0; CFloat f4_0],
           [])
  /\ (step ∅ false in_first_section "TEMP 1.0 2.0 3.0" =
        Ok (set_stdout
              (row_output false "TEMP 1.0 2.0 3.0" (stdout in_first_section))
              in_first_section)
      /\ data (set_stdout
                 (row_output false "TEMP 1.0 2.0 3.0" (stdout in_first_section))
                 in_first_section) = data in_first_section
      /\ (false = false ->
          set_stdout
            (row_output false "TEMP 1.0 2.0 3.0" (stdout in_first_section))
            in_first_section = in_first_section)
      /\ Forall (fun record => record_shape record = true)
           (df_rows (frame_of_row
                       [CStr "run1 "; CStr "1980-2000"; CStr "TEMP"; CStr ""]
                       [CBool false; CFloat f1_0; CFloat f2_0; CFloat f3_0;
                        CFloat f4_0]))).
Proof.
  split; [vm_compute; reflexivity|].
  split; [vm_compute; reflexivity|].
  split; [simpl; lia|].
  split; [vm_compute; reflexivity|].
  apply (short_row_is_dropped ∅ false in_first_section "TEMP 1.0 2.0 3.0"
           "TEMP" ["1.0"; "2.0"; "3.0"] report_example None _ []).
  - vm_compute; reflexivity.
  - vm_compute; reflexivity.
  - simpl; lia.
  - vm_compute; reflexivity.
Defined.

(** ** Descriptions *)

Lemma describe_cases (d : gmap string string) (name : string) :
  match d !! name with
  | Some v => if String.eqb v "" then describe d name = ("", false)
              else describe d name = (v, true)
  | None => describe d name = ("", false)
  end.
Proof.
  unfold describe. destruct (d !! name) as [v|]; simpl; [|reflexivity].
  destruct (String.eqb v ""); reflexivity.
Qed.

(** Whether a step raises does not depend on the dictionary. *)
Lemma step_any_dict d d' verbose st line st' :
  step d verbose st line = Ok st' ->
  exists st'', step d' verbose st line = Ok st''.
Proof.
  unfold step.
  destruct (PyStr.contains "TEST CASE:" line); [eauto|].
  destruct (PyStr.contains "CONTROL CASE:" line); [eauto|].
  destruct (PyStr.contains "Variable" line); [eauto|].
  destruct (in_data st); [|eauto].
  intros H. apply data_line_inv in H
    as (name & toks & Hrow & [[Hlen _]|(Hlen & y & xs & Hy & Hxs & _)]).
  - rewrite (data_line_drops _ _ _ _ _ _ Hrow Hlen). eauto.
  - rewrite (data_line_emits _ _ _ _ _ _ _ _ Hrow Hlen Hy Hxs). eauto.
Qed.

(** One step: in every record that a step appends, the flag is set exactly
    when the dictionary of the step has a non-empty description under the
    variable name, and then the description is that entry; the step succeeds
    under any other dictionary as well. *)
Theorem description_flag_iff_entry_not_empty
  (d : gmap string string) verbose st line st' (row : list cell) :
  step d verbose st line = Ok st' ->
  data st' = data st ++ [row] ->
  exists name desc flag,
    row !! 2 = Some (CStr name)
    /\ row !! 3 = Some (CStr desc)
    /\ row !! 4 = Some (CBool flag)
    /\ (flag = true <-> exists v, d !! name = Some v /\ v <> "")
    /\ (flag = true -> d !! name = Some desc)
    /\ (flag = false -> desc = "")
    /\ forall d' : gmap string string,
         exists st'', step d' verbose st line = Ok st''.
Proof.
  intros Hstep Hdata.
  destruct (step_emitted _ _ _ _ _ _ Hstep Hdata)
    as (_ & name & toks & y & xs & _ & _ & _ & _ & ->).
  exists name, (fst (describe d name)), (snd (describe d name)).
  repeat (split; [reflexivity|]).
  pose proof (describe_cases d name) as Hd.
  destruct (d !! name) as [v|] eqn:Hlook.
  - destruct (String.eqb_spec v "") as [->|Hne]; rewrite Hd; simpl.
    + split; [|split; [discriminate|split; [reflexivity|]]].
      * split; [discriminate|]. intros (v & [= <-] & Hv). contradiction.
      * intros d'. eapply step_any_dict; eassumption.
    + split; [|split; [reflexivity|split; [discriminate|]]].
      * split; [eauto|reflexivity].
      * intros d'. eapply step_any_dict; eassumption.
  - rewrite Hd. simpl.
    split; [|split; [discriminate|split; [reflexivity|]]].
    + split; [discriminate|]. intros (v & Hv & _). discriminate.
    + intros d'. eapply step_any_dict; eassumption.
Qed.

Lemma description_flag_iff_entry_not_empty_witness :
  step (<["TEMP" := ""]> ∅) false in_first_section "TEMP 1.0 2.0 3.0 4.0"
  = Ok (append_data
          [CStr "run1 "; CStr "1980-2000"; CStr "TEMP"; CStr ""; CBool false;
           CFloat f1_0; CFloat f2_0; CFloat f3_0; CFloat f4_0]
          in_first_section)
  /\ exists name desc flag,
       [CStr "run1 "; CStr "1980-2000"; CStr "TEMP"; CStr ""; CBool false;
        CFloat f1_0; CFloat f2_0; CFloat f3_0; CFloat f4_0] !! 2
       = Some (CStr name)
       /\ [CStr "run1 "; CStr "1980-2000"; CStr "TEMP"; CStr ""; CBool false;
           CFloat f1_0; CFloat f2_0; CFloat f3_0; CFloat f4_0] !! 3
          = Some (CStr desc)
       /\ [CStr "run1 "; CStr "1980-2000"; CStr "TEMP"; CStr ""; CBool false;
           CFloat f1_0; CFloat f2_0; CFloat f3_0; CFloat f4_0] !! 4
          = Some (CBool flag)
       /\ (flag = true <->
           exists v, (<["TEMP" := ""]> ∅ : gmap string string) !! name = Some v
                     /\ v <> "")
       /\ (flag = true ->
           (<["TEMP" := ""]> ∅ : gmap string string) !! name = Some desc)
       /\ (flag = false -> desc = "")
       /\ forall d' : gmap string string,
            exists st'',
              step d' false in_first_section "TEMP 1.0 2.0 3.0 4.0" = Ok st''.
Proof.
  split; [vm_compute; reflexivity|].
  apply (description_flag_iff_entry_not_empty (<["TEMP" := ""]> ∅) false
           in_first_section "TEMP 1.0 2.0 3.0 4.0"
           (append_data
              [CStr "run1 "; CStr "1980-2000"; CStr "TEMP"; CStr ""; CBool false;
               CFloat f1_0; CFloat f2_0; CFloat f3_0; CFloat f4_0]
              in_first_section)).
  - vm_compute; reflexivity.
  - reflexivity.
Defined.

(** ** The colormap of a range that is zero *)

Lemma is_zero_cases (a : py_number) :
  PyNum.is_zero a = true ->
  a = PyInt 0
  \/ (exists s, a = PyFloat (S754_zero s))
  \/ (exists s, a = PyNpFloat (S754_zero s)).
Proof.
  destruct a as [z|x|x]; simpl.
  - intros H. apply Z.eqb_eq in H. subst. now left.
  - unfold SFeqb, SFcompare.
    destruct x as [s|s| |s m e]; try discriminate; [eauto| |];
      destruct s; discriminate.
  - unfold SFeqb, SFcompare.
    destruct x as [s|s| |s m e]; try discriminate; [eauto| |];
      destruct s; discriminate.
Qed.

(** Line 36 on two built-in zeros. *)
Lemma midpoint_zero_builtin (vmin vmax : py_number) :
  PyNum.is_zero vmin = true -> PyNum.is_zero vmax = true ->
  PyNum.is_numpy vmin || PyNum.is_numpy vmax = false ->
  midpoint vmin vmax = Raise ZeroDivisionError.
Proof.
  intros Hmin Hmax Hnp.
  apply is_zero_cases in Hmin as [->|[[s1 ->]|[s1 ->]]];
    apply is_zero_cases in Hmax as [->|[[s2 ->]|[s2 ->]]];
    try discriminate Hnp; reflexivity.
Qed.

(** Line 36 on two zeros of which one is numpy's. *)
Lemma midpoint_zero_numpy (vmin vmax : py_number) :
  PyNum.is_zero vmin = true -> PyNum.is_zero vmax = true ->
  PyNum.is_numpy vmin || PyNum.is_numpy vmax = true ->
  midpoint vmin vmax = Ok (PyNpFloat S754_nan).
Proof.
  intros Hmin Hmax Hnp.
  apply is_zero_cases in Hmin as [->|[[s1 ->]|[s1 ->]]];
    apply is_zero_cases in Hmax as [->|[[s2 ->]|[s2 ->]]];
    try discriminate Hnp;
    try destruct s1; try destruct s2; vm_compute; reflexivity.
Qed.

(** C9, refuted as stated: for [vmin] and [vmax] the numpy zero the
    midpoint of line 36 is NaN, nothing is raised, and the function returns
    the colormap whose positions come from that NaN midpoint. *)
Lemma numpy_zero_range_returns_colormap :
  PyNum.is_zero (PyNpFloat (S754_zero false)) = true
  /\ midpoint (PyNpFloat (S754_zero false)) (PyNpFloat (S754_zero false))
     = Ok (PyNpFloat S754_nan)
  /\ shifted_color_map black no_cmap constant_points
       (PyNpFloat (S754_zero false)) (PyNpFloat (S754_zero false)) CmapNone
     = Ok (mkLinearSegmentedColormap "shiftedcmap"
             (fill_cdict black
                (constant_points (PyInt 0) (PyInt 1) 257 true)
                (constant_points (PyFloat (S754_zero false))
                   (PyNpFloat S754_nan) 128 false
                 ++ constant_points (PyNpFloat S754_nan)
                      (PyFloat (PyFloat.of_int 1)) 129 true))).
Proof.
  split; [reflexivity|]. split; [vm_compute; reflexivity|].
  vm_compute; reflexivity.
Qed.

(** C9, as the code has it: the function has no check of its own.  For
    [vmin] and [vmax] both zero and both built-in (the int 0 or a float
    zero of either sign), line 36 raises [ZeroDivisionError], which reaches
    the caller, unless the lookup of a colormap name on line 34 has raised
    before: no colormap is returned.  When one of the two zeros is a numpy
    [float64], line 36 raises nothing, the midpoint is NaN, and the
    function returns the colormap built from it. *)
Theorem zero_range_raises_unless_numpy
  (seismic : colormap) (get_cmap : string -> result colormap)
  (linspace : py_number -> py_number -> nat -> bool -> list spec_float)
  (vmin vmax : py_number) (cmap : cmap_arg) :
  PyNum.is_zero vmin = true ->
  PyNum.is_zero vmax = true ->
  if PyNum.is_numpy vmin || PyNum.is_numpy vmax then
    midpoint vmin vmax = Ok (PyNpFloat S754_nan)
    /\ forall c, resolve_cmap seismic get_cmap cmap = Ok c ->
         shifted_color_map seismic get_cmap linspace vmin vmax cmap =
         Ok (mkLinearSegmentedColormap "shiftedcmap"
               (fill_cdict c
                  (linspace (PyInt 0) (PyInt 1) 257 true)
                  (linspace (PyFloat (S754_zero false))
                     (PyNpFloat S754_nan) 128 false
                   ++ linspace (PyNpFloat S754_nan)
                        (PyFloat (PyFloat.of_int 1)) 129 true)))
  else
    (exists e,
       shifted_color_map seismic get_cmap linspace vmin vmax cmap = Raise e)
    /\ forall c, resolve_cmap seismic get_cmap cmap = Ok c ->
         shifted_color_map seismic get_cmap linspace vmin vmax cmap
         = Raise ZeroDivisionError.
Proof.
  intros Hmin Hmax. unfold shifted_color_map.
  destruct (PyNum.is_numpy vmin || PyNum.is_numpy vmax) eqn:Hnp.
  - rewrite (midpoint_zero_numpy _ _ Hmin Hmax Hnp).
    split; [reflexivity|]. intros c ->. reflexivity.
  - rewrite (midpoint_zero_builtin _ _ Hmin Hmax Hnp).
    destruct (resolve_cmap seismic get_cmap cmap) as [c|e]; simpl.
    + split; [eauto|reflexivity].
    + split; [eauto|discriminate].
Qed.

Lemma zero_range_raises_unless_numpy_witness :
  PyNum.is_zero (PyInt 0) = true
  /\ PyNum.is_zero (PyFloat (S754_zero true)) = true
  /\ (if PyNum.is_numpy (PyInt 0) || PyNum.is_numpy (PyFloat (S754_zero true))
      then
        midpoint (PyInt 0) (PyFloat (S754_zero true)) = Ok (PyNpFloat S754_nan)
        /\ forall c, resolve_cmap black no_cmap CmapNone = Ok c ->
             shifted_color_map black no_cmap no_points
               (PyInt 0) (PyFloat (S754_zero true)) CmapNone =
             Ok (mkLinearSegmentedColormap "shiftedcmap"
                   (fill_cdict c
                      (no_points (PyInt 0) (PyInt 1) 257 true)
                      (no_points (PyFloat (S754_zero false))
                         (PyNpFloat S754_nan) 128 false
                       ++ no_points (PyNpFloat S754_nan)
                            (PyFloat (PyFloat.of_int 1)) 129 true)))
      else
        (exists e,
           shifted_color_map black no_cmap no_points
             (PyInt 0) (PyFloat (S754_zero true)) CmapNone = Raise e)
        /\ forall c, resolve_cmap black no_cmap CmapNone = Ok c ->
             shifted_color_map black no_cmap no_points
               (PyInt 0) (PyFloat (S754_zero true)) CmapNone
             = Raise ZeroDivisionError).
Proof.
  split; [reflexivity|]. split; [reflexivity|].
  apply (zero_range_raises_unless_numpy black no_cmap no_points
           (PyInt 0) (PyFloat (S754_zero true)) CmapNone); reflexivity.
Defined.

(** ** More on strings *)

Lemma partition_contains (sep s a b : string) :
  PyStr.partition sep s = Some (a, b) -> PyStr.contains sep s = true.
Proof. unfold PyStr.contains. now intros ->. Qed.

Lemma not_empty (c : ascii) (s : string) : String c s <> "".
Proof. discriminate. Qed.

(** [s.split(sep)[0]] is the text before the first [sep]. *)
Lemma split_first (sep s : string) :
  sep <> "" -> index (PyStr.split sep s) 0 = Ok (text_before sep s).
Proof.
  intros Hsep. unfold text_before.
  destruct (PyStr.partition sep s) as [[a b]|] eqn:Hp.
  - now rewrite (split_cons _ _ _ _ Hsep Hp).
  - rewrite split_absent; [reflexivity|].
    unfold PyStr.contains. now rewrite Hp.
Qed.

(** [s.split(sep)[1]] exists when [sep] occurs, and is the text between the
    first occurrence and the next. *)
Lemma split_second (sep s a b : string) :
  sep <> "" -> PyStr.partition sep s = Some (a, b) ->
  index (PyStr.split sep s) 1 = Ok (text_before sep b).
Proof.
  intros Hsep Hp. rewrite (split_cons _ _ _ _ Hsep Hp).
  pose proof (split_first sep b Hsep) as H0. unfold index in *.
  change ((a :: PyStr.split sep b) !! 1) with (PyStr.split sep b !! 0).
  exact H0.
Qed.

Lemma split_second_absent (sep s : string) :
  PyStr.contains sep s = false ->
  index (PyStr.split sep s) 1 = Raise IndexError.
Proof. intros H. now rewrite (split_absent _ _ H). Qed.

(** A string of white space holds no text that begins with another
    character. *)
Lemma blank_partition (c : ascii) (sep s : string) :
  PyStr.isspace c = false -> blank s = true ->
  PyStr.partition (String c sep) s = None.
Proof.
  intros Hc. induction s as [|x s IH]; intros Hb; [reflexivity|].
  simpl in Hb. apply andb_true_iff in Hb as [Hx Hs].
  cbn [PyStr.partition String.prefix].
  destruct (ascii_dec c x) as [->|_]; [congruence|].
  now rewrite (IH Hs).
Qed.

Lemma blank_contains (c : ascii) (sep s : string) :
  PyStr.isspace c = false -> blank s = true ->
  PyStr.contains (String c sep) s = false.
Proof.
  intros Hc Hb. unfold PyStr.contains. now rewrite (blank_partition _ _ _ Hc Hb).
Qed.

Lemma blank_split_ws (s : string) :
  blank s = true -> PyStr.split_ws s = [].
Proof.
  unfold PyStr.split_ws. induction s as [|x s IH]; intros Hb; [reflexivity|].
  simpl in Hb. apply andb_true_iff in Hb as [Hx Hs].
  simpl. rewrite Hx. auto.
Qed.

Lemma no_space_snoc (t : string) (c : ascii) :
  no_space (t +:+ String c "") = no_space t && negb (PyStr.isspace c).
Proof.
  induction t as [|x t IH]; simpl.
  - now rewrite andb_true_r.
  - rewrite IH. now rewrite andb_assoc.
Qed.

Lemma snoc_not_empty (t : string) (c : ascii) : t +:+ String c "" <> "".
Proof. destruct t; discriminate. Qed.

(** The tokens of [s.split()] are not empty and hold no white space. *)
Lemma split_ws_from_tokens (s : string) : forall tok : option string,
  (forall t, tok = Some t -> t <> "" /\ no_space t = true) ->
  Forall (fun t => t <> "" /\ no_space t = true) (PyStr.split_ws_from tok s).
Proof.
  induction s as [|c s IH]; intros tok Htok; simpl.
  - destruct tok as [t|]; [|constructor].
    constructor; [now apply Htok|constructor].
  - destruct (PyStr.isspace c) eqn:Hc.
    + destruct tok as [t|].
      * constructor; [now apply Htok|]. apply IH. discriminate.
      * apply IH. discriminate.
    + apply IH. intros t [= <-]. split; [apply snoc_not_empty|].
      rewrite no_space_snoc, Hc.
      destruct tok as [t|]; simpl; [|reflexivity].
      destruct (Htok t eq_refl) as [_ ->]. reflexivity.
Qed.

Lemma split_ws_tokens (s : string) :
  Forall (fun t => t <> "" /\ no_space t = true) (PyStr.split_ws s).
Proof. apply split_ws_from_tokens. discriminate. Qed.

(** ** More on the lines of a report *)

(** The step of a control-case line. *)
Lemma control_case_step
  d verbose (st : locals) (line : string) :
  is_control_case_line line = true ->
  exists pre rest,
    PyStr.partition "CONTROL CASE:" line = Some (pre, rest)
    /\ step d verbose st line =
       Ok (set_control_case
             (PyStr.strip (text_before "CONTROL CASE:" rest)) st).
Proof.
  unfold is_control_case_line, step. intros Hline.
  apply andb_true_iff in Hline as [Htc Hcc].
  apply negb_true_iff in Htc. rewrite Htc, Hcc.
  destruct (contains_partition _ _ Hcc) as (pre & rest & Hp).
  exists pre, rest. split; [assumption|].
  unfold control_case_line.
  rewrite (split_second _ _ _ _ (not_empty _ _) Hp). reflexivity.
Qed.

(** X1: a line with "CONTROL CASE:" and without "TEST CASE:" never raises:
    the step stores the stripped text between the first "CONTROL CASE:" and
    the next one (or the end of the line) in [control_case] and changes
    nothing else, in particular no record. *)
Theorem control_case_line_sets_control_case
  d verbose (st : locals) (line : string) :
  is_control_case_line line = true ->
  exists pre rest,
    PyStr.partition "CONTROL CASE:" line = Some (pre, rest)
    /\ step d verbose st line =
       Ok (set_control_case
             (PyStr.strip (text_before "CONTROL CASE:" rest)) st).
Proof. exact (control_case_step d verbose st line). Qed.

Lemma control_case_line_sets_control_case_witness :
  is_control_case_line "  CONTROL CASE: ctrl1 (yrs 1-5) " = true
  /\ exists pre rest,
       PyStr.partition "CONTROL CASE:" "  CONTROL CASE: ctrl1 (yrs 1-5) "
       = Some (pre, rest)
       /\ step ∅ true in_first_section "  CONTROL CASE: ctrl1 (yrs 1-5) " =
          Ok (set_control_case
                (PyStr.strip (text_before "CONTROL CASE:" rest))
                in_first_section).
Proof.
  split; [vm_compute; reflexivity|].
  apply (control_case_line_sets_control_case ∅ true in_first_section
           "  CONTROL CASE: ctrl1 (yrs 1-5) ").
  vm_compute; reflexivity.
Defined.

(** X2: the step for a line with "TEST CASE:" looks at the text between the
    first marker and the next one, stripped.  Without "(yrs " in it the
    step raises [IndexError].  With it, the run is the text before the
    first "(yrs " and the years are the text behind it up to the next
    "(yrs " and up to the first ")": a missing ")" raises nothing; [header]
    is bound and the other locals stay. *)
Theorem test_case_header_outcome
  d verbose (st : locals) (line pre rest : string) :
  PyStr.partition "TEST CASE:" line = Some (pre, rest) ->
  step d verbose st line =
  match PyStr.partition "(yrs " (PyStr.strip (text_before "TEST CASE:" rest)) with
  | Some (run, tail) =>
      Ok {| test_case := run; control_case := control_case st;
            years := Some (text_before ")" (text_before "(yrs " tail));
            header := Some header_columns;
            in_data := in_data st; data := data st; stdout := stdout st |}
  | None => Raise IndexError
  end.
Proof.
  intros Hp. unfold step. rewrite (partition_contains _ _ _ _ Hp).
  unfold test_case_line.
  rewrite (split_second _ _ _ _ (not_empty _ _) Hp). cbn [bind].
  set (part := PyStr.strip (text_before "TEST CASE:" rest)).
  rewrite (split_first "(yrs " part (not_empty _ _)). cbn [bind].
  destruct (PyStr.partition "(yrs " part) as [[run tail]|] eqn:Hy.
  - rewrite (split_second _ _ _ _ (not_empty _ _) Hy). cbn [bind].
    rewrite (split_first ")" _ (not_empty _ _)). cbn [bind].
    unfold text_before at 1. rewrite Hy. reflexivity.
  - rewrite split_second_absent; [reflexivity|].
    unfold PyStr.contains. now rewrite Hy.
Qed.

Lemma test_case_header_outcome_witness :
  PyStr.partition "TEST CASE:" "TEST CASE: run1 (yrs 1980-2000"
  = Some ("", " run1 (yrs 1980-2000")
  /\ step ∅ false initial "TEST CASE: run1 (yrs 1980-2000" =
     match PyStr.partition "(yrs "
             (PyStr.strip (text_before "TEST CASE:" " run1 (yrs 1980-2000")) with
     | Some (run, tail) =>
         Ok {| test_case := run; control_case := control_case initial;
               years := Some (text_before ")" (text_before "(yrs " tail));
               header := Some header_columns;
               in_data := in_data initial; data := data initial;
               stdout := stdout initial |}
     | None => Raise IndexError
     end.
Proof.
  split; [vm_compute; reflexivity|].
  apply (test_case_header_outcome ∅ false initial
           "TEST CASE: run1 (yrs 1980-2000" "" " run1 (yrs 1980-2000").
  vm_compute; reflexivity.
Defined.

(** X3: inside the data section, a line that is empty or holds white space
    only raises [IndexError]: it has no first token to take as the
    variable name (line 144). *)
Theorem blank_data_line_raises d verbose (st : locals) (line : string) :
  in_data st = true ->
  blank line = true ->
  step d verbose st line = Raise IndexError.
Proof.
  intros Hin Hb.
  assert (Hno : forall c sep, PyStr.isspace c = false ->
                  PyStr.contains (String c sep) line = false).
  { intros c sep Hc. now apply blank_contains. }
  unfold step. rewrite !Hno by reflexivity. rewrite Hin.
  rewrite data_line_unfold. unfold row_tokens, find_problem_var, problem_vars.
  cbn [fold_left]. rewrite !Hno by reflexivity. cbn [fst split_row].
  now rewrite (blank_split_ws _ Hb).
Qed.

Lemma blank_data_line_raises_witness :
  in_data in_first_section = true
  /\ blank "   " = true
  /\ step ∅ false in_first_section "   " = Raise IndexError.
Proof.
  split; [reflexivity|]. split; [reflexivity|].
  apply (blank_data_line_raises ∅ false in_first_section "   ");
    reflexivity.
Defined.

(** X4: the tokens behind the variable name of a row, which go to
    [float], are not empty and hold no white space, and so does the
    variable name unless it is a problem variable. *)
Theorem row_tokens_have_no_space (line name : string) (toks : list string) :
  row_tokens line = Ok (name, toks) ->
  Forall (fun t => t <> "" /\ no_space t = true) toks
  /\ (matched_var line = None -> name <> "" /\ no_space name = true).
Proof.
  unfold row_tokens, matched_var, split_row.
  destruct (fst (find_problem_var false line [])) as [[spl v]|]; simpl.
  - unfold index, bind. destruct (spl !! 1) as [part|]; [|discriminate].
    intros [= <- <-]. split; [apply split_ws_tokens|discriminate].
  - pose proof (split_ws_tokens line) as Hall.
    destruct (PyStr.split_ws line) as [|v spl]; [discriminate|].
    intros [= <- <-]. inversion Hall; subst. auto.
Qed.

Lemma row_tokens_have_no_space_witness :
  row_tokens " TEMP   1.0 2.0	3.0  " = Ok ("TEMP", ["1.0"; "2.0"; "3.0"])
  /\ (Forall (fun t => t <> "" /\ no_space t = true) ["1.0"; "2.0"; "3.0"]
      /\ (matched_var " TEMP   1.0 2.0	3.0  " = None ->
          "TEMP" <> "" /\ no_space "TEMP" = true)).
Proof.
  split; [vm_compute; reflexivity|].
  apply (row_tokens_have_no_space " TEMP   1.0 2.0	3.0  " "TEMP"
           ["1.0"; "2.0"; "3.0"]).
  vm_compute; reflexivity.
Defined.

(** ** More on the whole call *)

Lemma row_shape_record (row : list cell) :
  row_shape row = true ->
  length row = 9
  /\ pick row [0; 1; 2; 3] = take 4 row
  /\ pick row [4; 5; 6; 7; 8] = drop 4 row.
Proof.
  unfold row_shape. intros Hrow.
  repeat match type of Hrow with
         | match ?x with _ => _ end = true =>
             destruct x; try discriminate Hrow
         end.
  repeat split.
Qed.

(** The frame of rows of nine cells, in closed form. *)
Lemma set_index_records (rows : list (list cell)) :
  Forall (fun row => row_shape row = true) rows ->
  make_frame rows header_columns = Ok (header_columns, rows)
  /\ set_index (header_columns, rows) index_keys =
     Ok {| df_index := index_keys;
           df_columns := drop 4 header_columns;
           df_rows := map record_of rows |}.
Proof.
  intros Hall. split.
  - unfold make_frame.
    replace (forallb _ rows) with true; [reflexivity|].
    symmetry. apply forallb_forall. intros row Hin.
    rewrite Forall_forall in Hall.
    destruct (row_shape_record row) as (-> & _); [|reflexivity].
    apply Hall. now apply list_elem_of_In.
  - cbv [set_index header_columns index_keys]. simpl.
    do 2 f_equal. apply map_ext_Forall.
    eapply Forall_impl; [exact Hall|].
    intros row Hrow. destruct (row_shape_record row Hrow) as (_ & H4 & H5).
    unfold record_of. now rewrite <- H4, <- H5.
Qed.

(** The end of the function behind a loop that raised nothing. *)
Lemma read_file_custom_after_loop
  dict verbose (lines : list string) (st : locals) :
  run_lines (normalize_dict dict) verbose initial lines = Ok st ->
  read_file_custom lines dict verbose =
  if existsb is_test_case_header lines then
    Ok ({| df_index := index_keys;
           df_columns := drop 4 header_columns;
           df_rows := map record_of (data st) |},
        print_if verbose ("Control case: " +:+ control_case st)
          (print_if verbose ("Test case: " +:+ test_case st) (stdout st)))
  else Raise (UnboundLocalError "header").
Proof.
  intros Hrun. unfold read_file_custom. rewrite Hrun. cbn [bind].
  assert (Hall : Forall (fun row => row_shape row = true) (data st)).
  { apply (run_lines_shape _ _ _ _ _ Hrun). constructor. }
  apply run_lines_flags in Hrun as (_ & _ & ->).
  destruct (existsb is_test_case_header lines); [|reflexivity].
  cbn [bind]. destruct (set_index_records _ Hall) as [-> Hset].
  cbn [bind]. rewrite Hset. reflexivity.
Qed.

(** X5: when the loop has run through the lines without an exception, the
    end of the function raises [UnboundLocalError] for [header] if no line
    held "TEST CASE:", and otherwise returns the frame of the collected
    records, in their order, each with its first four cells in the index
    and the flag and the four values in the columns: building the frame
    raises nothing. *)
Theorem frame_holds_the_records_in_order
  dict verbose (lines : list string) (st : locals) :
  run_lines (normalize_dict dict) verbose initial lines = Ok st ->
  read_file_custom lines dict verbose =
  if existsb is_test_case_header lines then
    Ok ({| df_index := index_keys;
           df_columns := drop 4 header_columns;
           df_rows := map record_of (data st) |},
        print_if verbose ("Control case: " +:+ control_case st)
          (print_if verbose ("Test case: " +:+ test_case st) (stdout st)))
  else Raise (UnboundLocalError "header").
Proof. exact (read_file_custom_after_loop dict verbose lines st). Qed.

Lemma frame_holds_the_records_in_order_witness :
  run_lines (normalize_dict None) false initial (take 2 report_second_test_case)
  = Ok in_first_section
  /\ read_file_custom (take 2 report_second_test_case) None false =
     (if existsb is_test_case_header (take 2 report_second_test_case) then
        Ok ({| df_index := index_keys;
               df_columns := drop 4 header_columns;
               df_rows := map record_of (data in_first_section) |},
            print_if false ("Control case: " +:+ control_case in_first_section)
              (print_if false ("Test case: " +:+ test_case in_first_section)
                 (stdout in_first_section)))
      else Raise (UnboundLocalError "header")).
Proof.
  split; [vm_compute; reflexivity|].
  apply (frame_holds_the_records_in_order None false
           (take 2 report_second_test_case) in_first_section).
  vm_compute; reflexivity.
Defined.

(** X6: the loop only appends to [data]: the records collected before stay
    where they are, and every line adds at most one record. *)
Theorem records_are_only_appended d verbose (lines : list string) :
  forall st st' : locals,
    run_lines d verbose st lines = Ok st' ->
    exists rows,
      data st' = data st ++ rows /\ length rows <= length lines.
Proof.
  induction lines as [|line lines IH]; intros st st' H; simpl in H.
  - injection H as <-. exists []. split; [now rewrite app_nil_r|simpl; lia].
  - destruct (step d verbose st line) as [st1|e] eqn:Hstep; [|discriminate].
    cbn [bind] in H. apply IH in H as (rows & -> & Hlen).
    apply step_data in Hstep
      as [->|(_ & name & toks & y & xs & _ & _ & _ & _ & ->)].
    + exists rows. split; [reflexivity|simpl; lia].
    + eexists (_ :: rows). split; [now rewrite <- app_assoc|simpl; lia].
Qed.

Lemma records_are_only_appended_witness :
  run_lines ∅ false in_first_section ["TEMP 1.0 2.0 3.0"; "PS 1 2 3 4"]
  = Ok (append_data
          [CStr "run1 "; CStr "1980-2000"; CStr "PS"; CStr ""; CBool false;
           CFloat f1_0; CFloat f2_0; CFloat f3_0; CFloat f4_0]
          in_first_section)
  /\ exists rows,
       data (append_data
               [CStr "run1 "; CStr "1980-2000"; CStr "PS"; CStr ""; CBool false;
                CFloat f1_0; CFloat f2_0; CFloat f3_0; CFloat f4_0]
               in_first_section)
       = data in_first_section ++ rows
       /\ length rows <= length ["TEMP 1.0 2.0 3.0"; "PS 1 2 3 4"].
Proof.
  split; [vm_compute; reflexivity|].
  apply (records_are_only_appended ∅ false ["TEMP 1.0 2.0 3.0"; "PS 1 2 3 4"]
           in_first_section).
  vm_compute; reflexivity.
Defined.

Lemma step_keeps_run d verbose st line st' :
  step d verbose st line = Ok st' ->
  is_test_case_header line = false ->
  test_case st' = test_case st /\ years st' = years st.
Proof.
  unfold is_test_case_header, step. intros H Hline. rewrite Hline in H.
  revert H.
  destruct (PyStr.contains "CONTROL CASE:" line).
  { unfold control_case_line, bind. destruct (index _ 1); [|discriminate].
    intros [= <-]. auto. }
  destruct (PyStr.contains "Variable" line); [intros [= <-]; auto|].
  destruct (in_data st); [|intros [= <-]; auto].
  intros H. apply data_line_inv in H
    as (name & toks & _ & [[_ ->]|(_ & y & xs & _ & _ & ->)]); auto.
Qed.

(** X7: over lines without "TEST CASE:", the run and the years stay, and
    every record that the lines add carries them in its first two cells:
    a record belongs to the last test-case header before its row. *)
Theorem records_carry_the_last_test_case
  d verbose (lines : list string) (y : string) :
  forall st st' : locals,
    run_lines d verbose st lines = Ok st' ->
    existsb is_test_case_header lines = false ->
    years st = Some y ->
    test_case st' = test_case st
    /\ years st' = Some y
    /\ exists rows,
         data st' = data st ++ rows
         /\ Forall (fun row => take 2 row = [CStr (test_case st); CStr y]) rows.
Proof.
  induction lines as [|line lines IH]; intros st st' H Hno Hy; simpl in H.
  - injection H as <-. repeat split; [assumption|].
    exists []. split; [now rewrite app_nil_r|constructor].
  - simpl in Hno. apply orb_false_iff in Hno as [Hline Hno].
    destruct (step d verbose st line) as [st1|e] eqn:Hstep; [|discriminate].
    cbn [bind] in H.
    destruct (step_keeps_run _ _ _ _ _ Hstep Hline) as [Htc Hys].
    rewrite Hy in Hys.
    destruct (IH _ _ H Hno Hys) as (-> & -> & rows & -> & Hall).
    rewrite Htc. repeat split.
    rewrite Htc in Hall.
    apply step_data in Hstep
      as [->|(_ & name & toks & y' & xs & _ & _ & Hy' & _ & ->)].
    + exists rows. auto.
    + rewrite Hy in Hy'. injection Hy' as <-.
      eexists (_ :: rows). split; [now rewrite <- app_assoc|].
      constructor; [reflexivity|assumption].
Qed.

Lemma records_carry_the_last_test_case_witness :
  run_lines ∅ false in_first_section
    ["CONTROL CASE: c"; "TEMP 1.0 2.0 3.0 4.0"]
  = Ok (append_data
          [CStr "run1 "; CStr "1980-2000"; CStr "TEMP"; CStr ""; CBool false;
           CFloat f1_0; CFloat f2_0; CFloat f3_0; CFloat f4_0]
          (set_control_case "c" in_first_section))
  /\ existsb is_test_case_header ["CONTROL CASE: c"; "TEMP 1.0 2.0 3.0 4.0"]
     = false
  /\ years in_first_section = Some "1980-2000"
  /\ (test_case (append_data
                   [CStr "run1 "; CStr "1980-2000"; CStr "TEMP"; CStr "";
                    CBool false;
                    CFloat f1_0; CFloat f2_0; CFloat f3_0; CFloat f4_0]
                   (set_control_case "c" in_first_section))
      = test_case in_first_section
      /\ years (append_data
                  [CStr "run1 "; CStr "1980-2000"; CStr "TEMP"; CStr "";
                   CBool false;
                   CFloat f1_0; CFloat f2_0; CFloat f3_0; CFloat f4_0]
                  (set_control_case "c" in_first_section))
         = Some "1980-2000"
      /\ exists rows,
           data (append_data
                   [CStr "run1 "; CStr "1980-2000"; CStr "TEMP"; CStr "";
                    CBool false;
                    CFloat f1_0; CFloat f2_0; CFloat f3_0; CFloat f4_0]
                   (set_control_case "c" in_first_section))
           = data in_first_section ++ rows
           /\ Forall (fun row =>
                        take 2 row
                        = [CStr (test_case in_first_section); CStr "1980-2000"])
                rows).
Proof.
  split; [vm_compute; reflexivity|].
  split; [vm_compute; reflexivity|].
  split; [reflexivity|].
  apply (records_carry_the_last_test_case ∅ false
           ["CONTROL CASE: c"; "TEMP 1.0 2.0 3.0 4.0"] "1980-2000"
           in_first_section).
  - vm_compute; reflexivity.
  - vm_compute; reflexivity.
  - reflexivity.
Defined.

Lemma run_lines_before_header d verbose (lines : list string) :
  forall st st' : locals,
    run_lines d verbose st lines = Ok st' ->
    in_data st = false ->
    existsb is_column_header lines = false ->
    data st' = data st.
Proof.
  induction lines as [|line lines IH]; intros st st' H Hin Hno; simpl in H.
  - now injection H as <-.
  - simpl in Hno. apply orb_false_iff in Hno as [Hline Hno].
    destruct (step d verbose st line) as [st1|e] eqn:Hstep; [|discriminate].
    cbn [bind] in H.
    pose proof (step_flags _ _ _ _ _ Hstep) as (Hin1 & _).
    rewrite Hin, Hline in Hin1. simpl in Hin1.
    rewrite (IH _ _ H Hin1 Hno).
    apply step_data in Hstep as [->|(Hcand & _)]; [reflexivity|].
    unfold is_candidate_row in Hcand. rewrite Hin in Hcand.
    rewrite andb_false_r in Hcand. discriminate.
Qed.

(** X8: without a column header (a line with "Variable" and neither
    "TEST CASE:" nor "CONTROL CASE:") no line is a data row: a frame that
    the call returns for such lines has no record. *)
Theorem no_column_header_no_record
  dict verbose (lines : list string) (df : DataFrame) (out : list string) :
  read_file_custom lines dict verbose = Ok (df, out) ->
  existsb is_column_header lines = false ->
  df_rows df = [].
Proof.
  intros Hcall Hno.
  destruct (run_lines (normalize_dict dict) verbose initial lines)
    as [st|e] eqn:Hrun.
  - rewrite (read_file_custom_after_loop _ _ _ _ Hrun) in Hcall.
    destruct (existsb is_test_case_header lines); [|discriminate].
    injection Hcall as <- _. simpl.
    now rewrite (run_lines_before_header _ _ _ _ _ Hrun eq_refl Hno).
  - now rewrite (read_file_custom_raise _ _ _ _ Hrun) in Hcall.
Qed.

Lemma no_column_header_no_record_witness :
  read_file_custom
    ["TEST CASE: run1 (yrs 1980-2000)"; "CONTROL CASE: Variable";
     "TEMP 1.0 2.0 3.0 4.0"] None false
  = Ok ({| df_index := index_keys; df_columns := drop 4 header_columns;
           df_rows := [] |}, [])
  /\ existsb is_column_header
       ["TEST CASE: run1 (yrs 1980-2000)"; "CONTROL CASE: Variable";
        "TEMP 1.0 2.0 3.0 4.0"] = false
  /\ df_rows {| df_index := index_keys; df_columns := drop 4 header_columns;
                df_rows := [] |} = [].
Proof.
  split; [vm_compute; reflexivity|].
  split; [vm_compute; reflexivity|].
  apply (no_column_header_no_record None false
           ["TEST CASE: run1 (yrs 1980-2000)"; "CONTROL CASE: Variable";
            "TEMP 1.0 2.0 3.0 4.0"] _ []).
  - vm_compute; reflexivity.
  - vm_compute; reflexivity.
Defined.

Lemma sentinel_not_minus_999 (x : spec_float) : sentinel x <> minus_999.
Proof.
  unfold sentinel. destruct (PyFloat.eq_int x (-999)) eqn:Hx; [discriminate|].
  intros ->. apply Bool.not_true_iff_false in Hx. apply Hx.
  now apply eq_int_minus_999.
Qed.

Lemma run_lines_no_sentinel d verbose (lines : list string) :
  forall st st' : locals,
    run_lines d verbose st lines = Ok st' ->
    Forall (fun row => CFloat minus_999 ∉ row) (data st) ->
    Forall (fun row => CFloat minus_999 ∉ row) (data st').
Proof.
  induction lines as [|line lines IH]; intros st st' H Hall; simpl in H.
  - now injection H as <-.
  - destruct (step d verbose st line) as [st1|e] eqn:Hstep; [|discriminate].
    cbn [bind] in H. apply (IH _ _ H).
    apply step_data in Hstep
      as [->|(_ & name & toks & y & xs & _ & _ & _ & _ & ->)]; [assumption|].
    apply Forall_app. split; [assumption|]. constructor; [|constructor].
    intros Hin. apply elem_of_app in Hin as [Hin|Hin].
    + repeat (apply elem_of_cons in Hin as [Hin|Hin]; [discriminate|]).
      now apply elem_of_nil in Hin.
    + apply list_elem_of_fmap in Hin as (x & [= Hx] & Hin).
      apply list_elem_of_fmap in Hin as (x0 & -> & _).
      symmetry in Hx. now apply sentinel_not_minus_999 in Hx.
Qed.

(** X9: no value of a returned frame is the float -999: whatever spelling
    of that number a row holds, the record holds NaN in its place. *)
Theorem frame_never_holds_minus_999
  dict verbose (lines : list string) (df : DataFrame) (out : list string) :
  read_file_custom lines dict verbose = Ok (df, out) ->
  Forall (fun record => CFloat minus_999 ∉ snd record) (df_rows df).
Proof.
  intros Hcall.
  destruct (run_lines (normalize_dict dict) verbose initial lines)
    as [st|e] eqn:Hrun.
  - rewrite (read_file_custom_after_loop _ _ _ _ Hrun) in Hcall.
    destruct (existsb is_test_case_header lines); [|discriminate].
    injection Hcall as <- _. simpl. apply Forall_map.
    assert (Hall : Forall (fun row => CFloat minus_999 ∉ row) (data st)).
    { apply (run_lines_no_sentinel _ _ _ _ _ Hrun). constructor. }
    eapply Forall_impl; [exact Hall|].
    intros row Hrow Hin. apply Hrow. simpl in Hin.
    rewrite <- (take_drop 4 row). apply elem_of_app. now right.
  - now rewrite (read_file_custom_raise _ _ _ _ Hrun) in Hcall.
Qed.

Lemma frame_never_holds_minus_999_witness :
  read_file_custom report_sentinel_spelling None false =
  Ok (frame_of_row
        [CStr "run1 "; CStr "1980-2000"; CStr "TEMP"; CStr ""]
        [CBool false; CFloat f1_0; CFloat f2_0; CFloat f3_0; CFloat S754_nan],
      [])
  /\ Forall (fun record => CFloat minus_999 ∉ snd record)
       (df_rows (frame_of_row
                   [CStr "run1 "; CStr "1980-2000"; CStr "TEMP"; CStr ""]
                   [CBool false; CFloat f1_0; CFloat f2_0; CFloat f3_0;
                    CFloat S754_nan])).
Proof.
  split; [vm_compute; reflexivity|].
  apply (frame_never_holds_minus_999 None false report_sentinel_spelling _ []).
  vm_compute; reflexivity.
Defined.

(** ** What does not change the frame *)

Lemma same_records_refl (st : locals) : same_records st st.
Proof. repeat split. Qed.

Lemma build_row_same d (st1 st2 : locals) name toks :
  same_records st1 st2 ->
  build_row d st1 name toks = build_row d st2 name toks.
Proof. intros (Htc & Hy & _). unfold build_row. now rewrite Htc, Hy. Qed.

(** One step from two states with the same records, whatever [verbose]. *)
Lemma step_same_outcome d v1 v2 (st1 st2 : locals) (line : string) :
  same_records st1 st2 ->
  same_outcome (step d v1 st1 line) (step d v2 st2 line).
Proof.
  intros Hsame. pose proof Hsame as (Htc & Hy & Hh & Hin & Hd).
  unfold step.
  destruct (PyStr.contains "TEST CASE:" line).
  { unfold test_case_line, bind.
    repeat match goal with
           | |- same_outcome (match ?m with _ => _ end) _ => destruct m
           end; simpl; try reflexivity.
    repeat split; assumption. }
  destruct (PyStr.contains "CONTROL CASE:" line).
  { unfold control_case_line, bind. destruct (index _ 1); simpl;
      [exact Hsame|reflexivity]. }
  destruct (PyStr.contains "Variable" line).
  { simpl. repeat split; assumption. }
  rewrite <- Hin. destruct (in_data st1) eqn:Hin1; [|exact Hsame].
  rewrite !data_line_unfold.
  destruct (row_tokens line) as [[name toks]|e]; [|reflexivity].
  cbn [bind fst snd].
  destruct (length toks =? 4)%nat; [|exact Hsame].
  rewrite (build_row_same d st1 st2 name toks Hsame).
  destruct (build_row d st2 name toks); simpl; [|reflexivity].
  repeat split; simpl; congruence.
Qed.


(** The end of the function on two outcomes of the loop. *)
Lemma same_outcome_frame dict1 dict2 v1 v2 (lines1 lines2 : list string) :
  same_outcome (run_lines (normalize_dict dict1) v1 initial lines1)
               (run_lines (normalize_dict dict2) v2 initial lines2) ->
  frame_of (read_file_custom lines1 dict1 v1)
  = frame_of (read_file_custom lines2 dict2 v2).
Proof.
  unfold read_file_custom, frame_of. intros Hsame.
  destruct (run_lines (normalize_dict dict1) v1 initial lines1) as [st1|e1],
           (run_lines (normalize_dict dict2) v2 initial lines2) as [st2|e2];
    simpl in Hsame; try contradiction; [|now subst].
  destruct Hsame as (_ & _ & Hh & _ & Hd). cbn [bind]. rewrite Hh, Hd.
  destruct (header st2) as [h|]; [|reflexivity]. cbn [bind].
  destruct (make_frame (data st2) h) as [frame|]; [|reflexivity]. cbn [bind].
  destruct (set_index frame index_keys); reflexivity.
Qed.



Lemma run_lines_without_control_case d verbose (lines : list string) :
  forall st1 st2 : locals,
    same_records st1 st2 ->
    same_outcome
      (run_lines d verbose st1 lines)
      (run_lines d verbose st2
         (filter (fun line => negb (is_control_case_line line)) lines)).
Proof.
  induction lines as [|line lines IH]; intros st1 st2 Hsame; [assumption|].
  rewrite filter_cons.
  destruct (is_control_case_line line) eqn:Hcc; simpl.
  - destruct (control_case_step d verbose st1 line Hcc)
      as (pre & rest & _ & ->).
    cbn [bind]. apply IH. exact Hsame.
  - pose proof (step_same_outcome d verbose verbose st1 st2 line Hsame) as Hstep.
    destruct (step d verbose st1 line), (step d verbose st2 line); simpl in *;
      try contradiction; [now apply IH|assumption].
Qed.

(** X11: the control-case lines (with "CONTROL CASE:" and without
    "TEST CASE:") have no part in the result: the call returns the same
    frame, or raises the same exception, when they are taken out of the
    input. *)
Theorem control_case_lines_do_not_matter dict verbose (lines : list string) :
  frame_of (read_file_custom lines dict verbose)
  = frame_of (read_file_custom
                (filter (fun line => negb (is_control_case_line line)) lines)
                dict verbose).
Proof.
  apply same_outcome_frame, run_lines_without_control_case, same_records_refl.
Qed.

(** ** The exceptions of the call *)

Lemma index_raises {A : Type} (l : list A) (i : nat) (e : py_exception) :
  index l i = Raise e -> e = IndexError.
Proof. unfold index. destruct (l !! i); [discriminate|]. now intros [= <-]. Qed.

Lemma step_raises d verbose st line e :
  step d verbose st line = Raise e ->
  e = IndexError \/ e = ValueError \/ e = UnboundLocalError "years".
Proof.
  unfold step.
  destruct (PyStr.contains "TEST CASE:" line).
  { unfold test_case_line, bind. intros H.
    repeat match type of H with
           | match ?m with _ => _ end = _ =>
               let Hi := fresh "Hi" in
               destruct m eqn:Hi;
               [|apply index_raises in Hi; injection H as <-; auto]
           end.
    discriminate. }
  destruct (PyStr.contains "CONTROL CASE:" line).
  { unfold control_case_line, bind. destruct (index _ 1) eqn:Hi; [discriminate|].
    apply index_raises in Hi. intros [= <-]. auto. }
  destruct (PyStr.contains "Variable" line); [discriminate|].
  destruct (in_data st); [|discriminate].
  rewrite data_line_unfold.
  destruct (row_tokens line) as [[name toks]|e1] eqn:Hrow; cbn [bind fst snd].
  - destruct (length toks =? 4)%nat; [|discriminate].
    destruct (years st) as [y|] eqn:Hy.
    + rewrite (build_row_bound _ _ _ _ _ Hy).
      destruct (mapM_convert_cases toks) as [(vals & -> & _)|[-> _]];
        [discriminate|].
      intros [= <-]. auto.
    + rewrite build_row_unbound by assumption. intros [= <-]. auto.
  - intros [= <-]. revert Hrow. unfold row_tokens, split_row, bind.
    destruct (fst _) as [[spl v]|].
    + destruct (index spl 1) eqn:Hi; [discriminate|].
      apply index_raises in Hi. intros [= <-]. auto.
    + destruct (PyStr.split_ws line); [|discriminate]. intros [= <-]. auto.
Qed.

(** X12: the call raises one of four exceptions only: [IndexError] (a
    test-case header without "(yrs ", a data line without a token),
    [ValueError] (a token that is no number), and [UnboundLocalError] for
    [years] or [header] (no test-case header).  The [KeyError] of a missing
    description and the [ValueError] of an empty one never leave the
    function. *)
Theorem read_file_custom_exceptions
  dict verbose (lines : list string) (e : py_exception) :
  read_file_custom lines dict verbose = Raise e ->
  e = IndexError \/ e = ValueError
  \/ e = UnboundLocalError "years" \/ e = UnboundLocalError "header".
Proof.
  intros Hcall.
  destruct (run_lines (normalize_dict dict) verbose initial lines)
    as [st|e1] eqn:Hrun.
  - rewrite (read_file_custom_after_loop _ _ _ _ Hrun) in Hcall.
    destruct (existsb is_test_case_header lines); [discriminate|].
    injection Hcall as <-. auto.
  - rewrite (read_file_custom_raise _ _ _ _ Hrun) in Hcall.
    injection Hcall as <-. revert Hrun. generalize initial.
    induction lines as [|line lines IH]; intros st H; simpl in H;
      [discriminate|].
    destruct (step _ verbose st line) as [st1|e2] eqn:Hstep; cbn [bind] in H.
    + destruct (IH _ H) as [?|[?|?]]; auto.
    + injection H as <-. destruct (step_raises _ _ _ _ _ Hstep) as [?|[?|?]]; auto.
Qed.

Lemma read_file_custom_exceptions_witness :
  read_file_custom ["TEST CASE: run1"] None false = Raise IndexError
  /\ (IndexError = IndexError \/ IndexError = ValueError
      \/ IndexError = UnboundLocalError "years"
      \/ IndexError = UnboundLocalError "header").
Proof.
  split; [vm_compute; reflexivity|].
  apply (read_file_custom_exceptions None false ["TEST CASE: run1"] IndexError).
  vm_compute; reflexivity.
Defined.

(** ** The dictionary of a sheet *)

Section ReadVarInfoFacts.

Context {V : Type} `{Countable V}.
Variable truthy : V -> bool.

Lemma col_wide (sheet : list (list V)) (w colx : nat) :
  Forall (fun row => length row = w) sheet -> colx < w ->
  exists cells,
    col sheet colx = Ok cells
    /\ Forall2 (fun row cell => row !! colx = Some cell) sheet cells.
Proof.
  intros Hall Hlt. unfold col.
  induction Hall as [|row sheet Hrow _ (cells & IH & Hcells)]; simpl.
  - exists []. split; [reflexivity|constructor].
  - destruct (lookup_lt_is_Some_2 row colx) as [cell Hcell]; [lia|].
    unfold index at 1. rewrite Hcell. cbn [bind]. rewrite IH. cbn [bind].
    exists (cell :: cells). split; [reflexivity|now constructor].
Qed.

Lemma col_narrow (sheet : list (list V)) (w colx : nat) :
  Forall (fun row => length row = w) sheet -> w <= colx -> sheet <> [] ->
  col sheet colx = Raise IndexError.
Proof.
  intros Hall Hle Hne. destruct Hall as [|row sheet Hrow _]; [contradiction|].
  unfold col. simpl. unfold index at 1.
  rewrite (lookup_ge_None_2 row colx) by lia. reflexivity.
Qed.

(** The loop over the names when column 2 can be read. *)
Lemma add_entries_wide (sheet : list (list V)) (descriptions : list V) :
  col sheet 2 = Ok descriptions ->
  forall (names : list V) (i : nat) (res : gmap V V),
    i + length names <= length descriptions ->
    add_entries truthy sheet i names res =
    Ok (fold_left (put_entry truthy) (zip names (drop i descriptions)) res).
Proof.
  intros Hcol. induction names as [|value names IH]; intros i res Hlen;
    simpl in *; [reflexivity|].
  destruct (lookup_lt_is_Some_2 descriptions i) as [v Hv]; [lia|].
  rewrite (drop_S _ _ _ Hv). simpl.
  unfold add_entry, put_entry at 2. simpl.
  destruct (truthy value).
  - rewrite Hcol. cbn [bind]. unfold index. rewrite Hv. cbn [bind].
    apply IH. lia.
  - cbn [bind]. apply IH. lia.
Qed.

(** The loop over the names when column 2 cannot be read. *)
Lemma add_entries_narrow (sheet : list (list V)) :
  col sheet 2 = Raise IndexError ->
  forall (names : list V) (i : nat) (res : gmap V V),
    add_entries truthy sheet i names res =
    if existsb truthy names then Raise IndexError else Ok res.
Proof.
  intros Hcol. induction names as [|value names IH]; intros i res; simpl;
    [reflexivity|].
  unfold add_entry. destruct (truthy value); simpl.
  - now rewrite Hcol.
  - apply IH.
Qed.

(** The last entry for a name decides. *)
Lemma fold_put_lookup (entries : list (V * V)) (k v : V) :
  fold_left (put_entry truthy) entries ∅ !! k = Some v <->
  truthy k = true
  /\ exists i, entries !! i = Some (k, v)
               /\ forall j v', i < j -> entries !! j <> Some (k, v').
Proof.
  induction entries as [|[k0 v0] entries IH] using rev_ind.
  - simpl. rewrite lookup_empty. split; [discriminate|].
    intros (_ & i & Hi & _). now rewrite lookup_nil in Hi.
  - rewrite fold_left_app. simpl. unfold put_entry at 1. simpl.
    destruct (truthy k0) eqn:Hk0.
    + destruct (decide (k0 = k)) as [->|Hne].
      * rewrite lookup_insert_eq. split.
        -- intros [= <-]. split; [assumption|].
           exists (length entries). split.
           ++ now rewrite list_lookup_middle.
           ++ intros j v' Hj. rewrite lookup_ge_None_2; [discriminate|].
              rewrite length_app. simpl. lia.
        -- intros (_ & i & Hi & Hlast).
           destruct (decide (i < length entries)) as [Hlt|Hge].
           ++ exfalso. apply (Hlast (length entries) v0 Hlt).
              now rewrite list_lookup_middle.
           ++ apply lookup_lt_Some in Hi as Hi'.
              rewrite length_app in Hi'. simpl in Hi'.
              assert (i = length entries) as -> by lia.
              rewrite list_lookup_middle in Hi by reflexivity.
              now injection Hi as ->.
      * rewrite lookup_insert_ne by assumption. rewrite IH. split.
        -- intros (Hk & i & Hi & Hlast). split; [assumption|].
           exists i. split; [now apply lookup_app_l_Some|].
           intros j v' Hj Hjv.
           apply lookup_app_Some in Hjv as [Hjv|[_ Hjv]];
             [now apply (Hlast j v' Hj)|].
           destruct (j - length entries); simpl in Hjv; [|discriminate].
           congruence.
        -- intros (Hk & i & Hi & Hlast). split; [assumption|].
           apply lookup_app_Some in Hi as [Hi|[_ Hi]].
           ++ exists i. split; [assumption|]. intros j v' Hj Hjv.
              apply (Hlast j v' Hj). now apply lookup_app_l_Some.
           ++ destruct (i - length entries); simpl in Hi; [|discriminate].
              congruence.
    + rewrite IH. split.
      * intros (Hk & i & Hi & Hlast). split; [assumption|].
        exists i. split; [now apply lookup_app_l_Some|].
        intros j v' Hj Hjv.
        apply lookup_app_Some in Hjv as [Hjv|[_ Hjv]];
          [now apply (Hlast j v' Hj)|].
        destruct (j - length entries); simpl in Hjv; [|discriminate].
        congruence.
      * intros (Hk & i & Hi & Hlast). split; [assumption|].
        apply lookup_app_Some in Hi as [Hi|[_ Hi]].
        -- exists i. split; [assumption|]. intros j v' Hj Hjv.
           apply (Hlast j v' Hj). now apply lookup_app_l_Some.
        -- destruct (i - length entries); simpl in Hi; [|discriminate].
           congruence.
Qed.

(** The dictionary of a sheet that is wide enough. *)
Lemma read_var_info_lookup (sheet : list (list V)) (w : nat) :
  Forall (fun row => length row = w) sheet ->
  3 <= w ->
  exists res,
    read_var_info_michaels_excel truthy sheet = Ok res
    /\ forall k v,
         res !! k = Some v <->
         truthy k = true
         /\ exists i row,
              sheet !! i = Some row
              /\ row !! 1 = Some k
              /\ row !! 2 = Some v
              /\ forall j row',
                   i < j -> sheet !! j = Some row' -> row' !! 1 <> Some k.
Proof.
  intros Hrect Hw.
  destruct (col_wide sheet w 1 Hrect) as (names & Hnames & Hn); [lia|].
  destruct (col_wide sheet w 2 Hrect) as (descs & Hdescs & Hd); [lia|].
  pose proof (Forall2_length _ _ _ Hn) as Hln.
  pose proof (Forall2_length _ _ _ Hd) as Hld.
  unfold read_var_info_michaels_excel. rewrite Hnames. cbn [bind].
  rewrite (add_entries_wide sheet descs Hdescs) by (simpl; lia).
  rewrite drop_0. eexists. split; [reflexivity|].
  assert (Hentry : forall i k v,
            zip names descs !! i = Some (k, v) <->
            exists row, sheet !! i = Some row
                        /\ row !! 1 = Some k /\ row !! 2 = Some v).
  { intros i k v. rewrite lookup_zip_with_Some. split.
    - intros (k' & v' & [= <- <-] & Hk & Hv).
      destruct (Forall2_lookup_r _ _ _ _ _ Hn Hk) as (row & Hrow & Hrk).
      destruct (Forall2_lookup_r _ _ _ _ _ Hd Hv) as (row' & Hrow' & Hrv).
      rewrite Hrow in Hrow'. injection Hrow' as <-. eauto.
    - intros (row & Hrow & Hrk & Hrv).
      destruct (Forall2_lookup_l _ _ _ _ _ Hn Hrow) as (k' & Hk & Hrk').
      destruct (Forall2_lookup_l _ _ _ _ _ Hd Hrow) as (v' & Hv & Hrv').
      exists k, v. split; [reflexivity|]. split; congruence. }
  intros k v. rewrite fold_put_lookup. split.
  - intros (Hk & i & Hi & Hlast). split; [assumption|].
    apply Hentry in Hi as (row & Hrow & Hrk & Hrv).
    exists i, row. repeat split; try assumption.
    intros j row' Hj Hrow' Hrk'.
    destruct (lookup_lt_is_Some_2 row' 2) as [v' Hv'].
    { rewrite Forall_forall in Hrect.
      rewrite (Hrect row'); [lia|].
      now apply list_elem_of_lookup_2 in Hrow'. }
    apply (Hlast j v' Hj). apply Hentry. eauto.
  - intros (Hk & i & row & Hrow & Hrk & Hrv & Hlast). split; [assumption|].
    exists i. split; [apply Hentry; eauto|].
    intros j v' Hj Hjv. apply Hentry in Hjv as (row' & Hrow' & Hrk' & _).
    now apply (Hlast j row' Hj Hrow').
Qed.

(** X13: for a sheet with at least three columns the function raises
    nothing, and the dictionary maps a name [k] to [v] exactly when [k]
    counts as true and the last row with [k] in column 1 has [v] in
    column 2: rows without a name are skipped and a later row replaces an
    earlier one with the same name. *)
Theorem sheet_dictionary_takes_last_row (sheet : list (list V)) (w : nat) :
  Forall (fun row => length row = w) sheet ->
  3 <= w ->
  exists res,
    read_var_info_michaels_excel truthy sheet = Ok res
    /\ forall k v,
         res !! k = Some v <->
         truthy k = true
         /\ exists i row,
              sheet !! i = Some row
              /\ row !! 1 = Some k
              /\ row !! 2 = Some v
              /\ forall j row',
                   i < j -> sheet !! j = Some row' -> row' !! 1 <> Some k.
Proof. exact (read_var_info_lookup sheet w). Qed.

(** X14: for a sheet with fewer than three columns the function raises
    [IndexError] as soon as it needs a cell that is not there: for a sheet
    with rows and fewer than two columns at once (column 1), for a sheet
    of two columns at the first row with a name (column 2).  A sheet
    without rows, or of two columns without any name, gives the empty
    dictionary. *)
Theorem narrow_sheet_raises (sheet : list (list V)) (w : nat) :
  Forall (fun row => length row = w) sheet ->
  w < 3 ->
  read_var_info_michaels_excel truthy sheet =
  match sheet with
  | [] => Ok ∅
  | _ :: _ =>
      if (w <? 2)%nat || existsb (has_name truthy) sheet
      then Raise IndexError else Ok ∅
  end.
Proof.
  intros Hrect Hw. destruct sheet as [|row0 sheet0] eqn:Hsheet; [reflexivity|].
  rewrite <- Hsheet in *. assert (Hne : sheet <> []) by (subst; discriminate).
  clear Hsheet. unfold read_var_info_michaels_excel.
  destruct (Nat.ltb_spec w 2) as [Hlt|Hge]; simpl.
  - now rewrite (col_narrow sheet w 1 Hrect) by (lia || assumption).
  - destruct (col_wide sheet w 1 Hrect) as (names & -> & Hn); [lia|].
    cbn [bind].
    rewrite add_entries_narrow
      by (apply (col_narrow sheet w 2 Hrect); [lia|assumption]).
    replace (existsb (has_name truthy) sheet) with (existsb truthy names);
      [reflexivity|].
    clear -Hn. induction Hn as [|row name sheet names Hrow _ IH];
      simpl; [reflexivity|].
    unfold has_name at 1. now rewrite Hrow, IH.
Qed.

End ReadVarInfoFacts.

Lemma sheet_dictionary_takes_last_row_witness :
  Forall (fun row : list string => length row = 3) sheet_example
  /\ 3 <= 3
  /\ exists res,
       read_var_info_michaels_excel text_truthy sheet_example = Ok res
       /\ forall k v,
            res !! k = Some v <->
            text_truthy k = true
            /\ exists i row,
                 sheet_example !! i = Some row
                 /\ row !! 1 = Some k
                 /\ row !! 2 = Some v
                 /\ forall j row',
                      i < j -> sheet_example !! j = Some row' ->
                      row' !! 1 <> Some k.
Proof.
  assert (Hrect : Forall (fun row : list string => length row = 3) sheet_example).
  { repeat constructor. }
  split; [exact Hrect|]. split; [lia|].
  exact (sheet_dictionary_takes_last_row text_truthy sheet_example 3 Hrect
           (le_n 3)).
Defined.

Lemma narrow_sheet_raises_witness :
  Forall (fun row : list string => length row = 2) sheet_narrow
  /\ 2 < 3
  /\ read_var_info_michaels_excel text_truthy sheet_narrow =
     match sheet_narrow with
     | [] => Ok ∅
     | _ :: _ =>
         if (2 <? 2)%nat || existsb (has_name text_truthy) sheet_narrow
         then Raise IndexError else Ok ∅
     end.
Proof.
  assert (Hrect : Forall (fun row : list string => length row = 2) sheet_narrow).
  { repeat constructor. }
  split; [exact Hrect|]. split; [lia|].
  apply (narrow_sheet_raises text_truthy sheet_narrow 2 Hrect). lia.
Defined.

(** The description and the flag that [describe] gives under the
    dictionary of a sheet of text cells. *)
Lemma describe_of_sheet
  (sheet : list (list string)) (w : nat) (res : gmap string string)
  (name v : string) :
  Forall (fun row => length row = w) sheet ->
  3 <= w ->
  read_var_info_michaels_excel text_truthy sheet = Ok res ->
  describe res name = (v, true) <->
  name <> "" /\ v <> ""
  /\ exists i row,
       sheet !! i = Some row
       /\ row !! 1 = Some name
       /\ row !! 2 = Some v
       /\ forall j row',
            i < j -> sheet !! j = Some row' -> row' !! 1 <> Some name.
Proof.
  intros Hrect Hw Hres.
  destruct (read_var_info_lookup text_truthy sheet w Hrect Hw)
    as (res' & Hres' & Hspec).
  rewrite Hres in Hres'. injection Hres' as <-.
  assert (Htruthy : forall s, text_truthy s = true <-> s <> "").
  { intros s. unfold text_truthy. destruct (String.eqb_spec s ""); split;
      intros; try discriminate; try contradiction; auto. }
  pose proof (describe_cases res name) as Hd.
  destruct (res !! name) as [v0|] eqn:Hlook.
  - destruct (String.eqb_spec v0 "") as [->|Hne]; rewrite Hd.
    + split; [discriminate|]. intros (_ & Hv & Hrow).
      assert (res !! name = Some v) as Hv0.
      { apply Hspec. split; [|assumption].
        apply Htruthy. apply Hspec in Hlook as [Hk _]. now apply Htruthy. }
      congruence.
    + split.
      * intros [= <-]. apply Hspec in Hlook as [Hk Hrow].
        split; [now apply Htruthy|]. split; assumption.
      * intros (Hn & Hv & Hrow).
        assert (res !! name = Some v) as Hv0.
        { apply Hspec. split; [now apply Htruthy|assumption]. }
        congruence.
  - rewrite Hd. split; [discriminate|]. intros (Hn & Hv & Hrow).
    assert (res !! name = Some v) as Hv0.
    { apply Hspec. split; [now apply Htruthy|assumption]. }
    congruence.
Qed.

(** ** The segments of the shifted colormap *)

(** The loop of lines 53 to 59 in closed form. *)
Lemma fill_cdict_channels (cmap : colormap)
  (reg_index shift_index : list spec_float) :
  fill_cdict cmap reg_index shift_index =
  {| red := channel red_of cmap reg_index shift_index;
     green := channel green_of cmap reg_index shift_index;
     blue := channel blue_of cmap reg_index shift_index;
     alpha := channel alpha_of cmap reg_index shift_index |}.
Proof.
  unfold fill_cdict, channel.
  generalize (zip reg_index shift_index). intros pairs.
  change (@nil segment) with (red {| red := []; green := []; blue := []; alpha := [] |}) at 2.
  assert (Hgen : forall acc : segmentdata,
            fold_left
              (fun cdict '(ri, si) =>
                 let '(r, g, b, a) := cmap ri in
                 {| red := red cdict ++ [(si, r, r)];
                    green := green cdict ++ [(si, g, g)];
                    blue := blue cdict ++ [(si, b, b)];
                    alpha := alpha cdict ++ [(si, a, a)] |})
              pairs acc =
            {| red := red acc
                 ++ map (fun p => (snd p, red_of (cmap (fst p)), red_of (cmap (fst p)))) pairs;
               green := green acc
                 ++ map (fun p => (snd p, green_of (cmap (fst p)), green_of (cmap (fst p)))) pairs;
               blue := blue acc
                 ++ map (fun p => (snd p, blue_of (cmap (fst p)), blue_of (cmap (fst p)))) pairs;
               alpha := alpha acc
                 ++ map (fun p => (snd p, alpha_of (cmap (fst p)), alpha_of (cmap (fst p)))) pairs |}).
  { induction pairs as [|[ri si] pairs IH]; intros acc; simpl.
    - rewrite !app_nil_r. now destruct acc.
    - rewrite IH. unfold red_of, green_of, blue_of, alpha_of. simpl.
      destruct (cmap ri) as [[[r g] b] a]. simpl.
      now rewrite <- !app_assoc. }
  apply Hgen.
Qed.

(** X16: when [np.linspace] returns as many points as it is asked for and
    the function returns a colormap, each of its four channels has 257
    segments; the positions of the segments are the 128 points from 0 to
    the midpoint followed by the 129 points from the midpoint to 1, the
    same in all channels, and the segment at a position holds, on both of
    its sides, the channel of the colour that the given colormap has at
    the same place of the 257 regular points. *)
Theorem shifted_segments
  (seismic : colormap) (get_cmap : string -> result colormap)
  (linspace : py_number -> py_number -> nat -> bool -> list spec_float)
  (vmin vmax : py_number) (cmap : cmap_arg) (m : LinearSegmentedColormap) :
  (forall start stop num endpoint,
     length (linspace start stop num endpoint) = num) ->
  shifted_color_map seismic get_cmap linspace vmin vmax cmap = Ok m ->
  exists (c : colormap) (mid : py_number),
    resolve_cmap seismic get_cmap cmap = Ok c
    /\ midpoint vmin vmax = Ok mid
    /\ let reg_index := linspace (PyInt 0) (PyInt 1) 257 true in
       let shift_index :=
         linspace (PyFloat (S754_zero false)) mid 128 false
         ++ linspace mid (PyFloat (PyFloat.of_int 1)) 129 true in
       cmap_segmentdata m =
         {| red := channel red_of c reg_index shift_index;
            green := channel green_of c reg_index shift_index;
            blue := channel blue_of c reg_index shift_index;
            alpha := channel alpha_of c reg_index shift_index |}
       /\ length (red (cmap_segmentdata m)) = 257
       /\ map (fun seg => fst (fst seg)) (red (cmap_segmentdata m)) = shift_index
       /\ map (fun seg => fst (fst seg)) (green (cmap_segmentdata m)) = shift_index
       /\ map (fun seg => fst (fst seg)) (blue (cmap_segmentdata m)) = shift_index
       /\ map (fun seg => fst (fst seg)) (alpha (cmap_segmentdata m)) = shift_index.
Proof.
  intros Hlen. unfold shifted_color_map.
  destruct (resolve_cmap seismic get_cmap cmap) as [c|e]; [|discriminate].
  cbn [bind].
  destruct (midpoint vmin vmax) as [mid|e]; [|discriminate].
  cbn [bind]. intros [= <-]. exists c, mid.
  split; [reflexivity|]. split; [reflexivity|].
  cbn zeta. cbn [cmap_segmentdata]. rewrite fill_cdict_channels.
  split; [reflexivity|]. cbn [red green blue alpha].
  set (reg_index := linspace (PyInt 0) (PyInt 1) 257 true).
  set (shift_index := linspace _ mid 128 false ++ linspace mid _ 129 true).
  assert (Hreg : length reg_index = 257) by apply Hlen.
  assert (Hshift : length shift_index = 257).
  { unfold shift_index. rewrite length_app, !Hlen. reflexivity. }
  assert (Hpos : forall pick_channel,
            map (fun seg : segment => fst (fst seg))
                (channel pick_channel c reg_index shift_index) = shift_index).
  { intros pick_channel. unfold channel. rewrite map_map. simpl.
    change (map (fun x : spec_float * spec_float => snd x)
                (zip reg_index shift_index))
      with ((zip reg_index shift_index).*2).
    apply snd_zip. lia. }
  split; [|repeat split; apply Hpos].
  unfold channel. rewrite length_map, length_zip_with. lia.
Qed.

Lemma shifted_segments_witness :
  (forall start stop num endpoint,
     length (constant_points start stop num endpoint) = num)
  /\ shifted_color_map black no_cmap constant_points
       (PyInt (-2)) (PyInt 4) CmapNone = Ok shifted_example
  /\ exists (c : colormap) (mid : py_number),
       resolve_cmap black no_cmap CmapNone = Ok c
       /\ midpoint (PyInt (-2)) (PyInt 4) = Ok mid
       /\ let reg_index := constant_points (PyInt 0) (PyInt 1) 257 true in
          let shift_index :=
            constant_points (PyFloat (S754_zero false)) mid 128 false
            ++ constant_points mid (PyFloat (PyFloat.of_int 1)) 129 true in
          cmap_segmentdata shifted_example =
            {| red := channel red_of c reg_index shift_index;
               green := channel green_of c reg_index shift_index;
               blue := channel blue_of c reg_index shift_index;
               alpha := channel alpha_of c reg_index shift_index |}
          /\ length (red (cmap_segmentdata shifted_example)) = 257
          /\ map (fun seg => fst (fst seg)) (red (cmap_segmentdata shifted_example))
             = shift_index
          /\ map (fun seg => fst (fst seg)) (green (cmap_segmentdata shifted_example))
             = shift_index
          /\ map (fun seg => fst (fst seg)) (blue (cmap_segmentdata shifted_example))
             = shift_index
          /\ map (fun seg => fst (fst seg)) (alpha (cmap_segmentdata shifted_example))
             = shift_index.
Proof.
  assert (Hlen : forall start stop num endpoint,
            length (constant_points start stop num endpoint) = num).
  { intros. apply length_replicate. }
  assert (Hcall : shifted_color_map black no_cmap constant_points
                    (PyInt (-2)) (PyInt 4) CmapNone = Ok shifted_example).
  { vm_compute; reflexivity. }
  split; [exact Hlen|]. split; [exact Hcall|].
  exact (shifted_segments black no_cmap constant_points
           (PyInt (-2)) (PyInt 4) CmapNone shifted_example Hlen Hcall).
Defined.

(** X17: for two ints, line 36 raises [ZeroDivisionError] exactly when
    both are zero. *)
Theorem int_midpoint_zero_division (a b : Z) :
  midpoint (PyInt a) (PyInt b) = Raise ZeroDivisionError <-> a = 0%Z /\ b = 0%Z.
Proof.
  unfold midpoint. cbn [PyNum.abs PyNum.add bind PyNum.truediv].
  unfold PyNum.int_truediv.
  destruct (Z.eqb_spec (Z.abs b + Z.abs a) 0) as [Hz|Hnz].
  - split; [intros _; lia|reflexivity].
  - split; [|intros [-> ->]; simpl in Hnz; lia]. intros Hraise. exfalso.
    revert Hraise.
    destruct (Z.abs b =? 0)%Z.
    + cbn [bind]. unfold PyNum.sub, PyNum.to_float.
      replace (PyFloat.of_int 1) with f1_0 by (vm_compute; reflexivity).
      unfold f1_0. cbn [bind]. discriminate.
    + destruct (SFdiv_core_binary _ _ _ _ _ _) as [[mz ez] lz].
      destruct (binary_round_aux _ _ _ _ _ _) as [s|s| |s q e];
        cbn [bind]; try discriminate;
        unfold PyNum.sub, PyNum.to_float;
        replace (PyFloat.of_int 1) with f1_0 by (vm_compute; reflexivity);
        unfold f1_0; cbn [bind]; discriminate.
Qed.

(** ** What the dictionary changes *)

Lemma without_description_row (a b c d e : cell) (rest : list cell) :
  without_description ([a; b; c; d; e] ++ rest) = [a; b; c] ++ rest.
Proof. reflexivity. Qed.

(** One step under two dictionaries. *)
Lemma step_any_dictionary d1 d2 verbose (st1 st2 : locals) (line : string) :
  same_but_descriptions st1 st2 ->
  match step d1 verbose st1 line, step d2 verbose st2 line with
  | Ok st1', Ok st2' => same_but_descriptions st1' st2'
  | Raise e1, Raise e2 => e1 = e2
  | _, _ => False
  end.
Proof.
  intros Hsame. pose proof Hsame as (Htc & Hcc & Hy & Hh & Hin & Hout & Hd).
  unfold step.
  destruct (PyStr.contains "TEST CASE:" line).
  { unfold test_case_line, bind.
    repeat match goal with
           | |- match match ?m with _ => _ end with _ => _ end => destruct m
           end; simpl; try reflexivity.
    repeat split; assumption. }
  destruct (PyStr.contains "CONTROL CASE:" line).
  { unfold control_case_line, bind. destruct (index _ 1); simpl;
      [repeat split; assumption|reflexivity]. }
  destruct (PyStr.contains "Variable" line).
  { repeat split; assumption. }
  rewrite <- Hin. destruct (in_data st1) eqn:Hin1.
  2:{ repeat split; simpl; congruence. }
  rewrite !data_line_unfold. rewrite <- Hout.
  destruct (row_tokens line) as [[name toks]|e]; [|reflexivity].
  cbn [bind fst snd].
  destruct (length toks =? 4)%nat.
  2:{ repeat split; simpl; congruence. }
  destruct (years st1) as [y|] eqn:Hy1.
  - rewrite (build_row_bound d1 st1 name toks y Hy1).
    rewrite (build_row_bound d2 st2 name toks y) by congruence.
    destruct (mapM convert toks) as [vals|e]; [|reflexivity].
    cbn [bind]. repeat split; try (simpl; congruence).
    cbn [data append_data set_stdout]. rewrite !map_app. cbn [map].
    rewrite !without_description_row. congruence.
  - rewrite (build_row_unbound d1 st1 name toks Hy1).
    rewrite (build_row_unbound d2 st2 name toks) by congruence.
    reflexivity.
Qed.

Lemma run_lines_any_dictionary d1 d2 verbose (lines : list string) :
  forall st1 st2 : locals,
    same_but_descriptions st1 st2 ->
    match run_lines d1 verbose st1 lines, run_lines d2 verbose st2 lines with
    | Ok st1', Ok st2' => same_but_descriptions st1' st2'
    | Raise e1, Raise e2 => e1 = e2
    | _, _ => False
    end.
Proof.
  induction lines as [|line lines IH]; intros st1 st2 Hsame; simpl;
    [assumption|].
  pose proof (step_any_dictionary d1 d2 verbose st1 st2 line Hsame) as Hstep.
  destruct (step d1 verbose st1 line), (step d2 verbose st2 line);
    simpl in *; try contradiction; [now apply IH|assumption].
Qed.

Lemma record_without_description_row (row : list cell) :
  record_without_description (record_of row)
  = (take 3 row, drop 5 row).
Proof.
  unfold record_without_description, record_of. simpl.
  rewrite take_take, drop_drop. reflexivity.
Qed.

(** X18: the dictionary only fills the description and the flag: under two
    dictionaries the call raises the same exception, or returns frames
    with the same records, in the same order, up to these two cells, and
    prints the same. *)
Theorem dictionary_only_fills_description
  dict1 dict2 verbose (lines : list string) :
  match read_file_custom lines dict1 verbose,
        read_file_custom lines dict2 verbose with
  | Ok (df1, out1), Ok (df2, out2) =>
      out1 = out2
      /\ df_index df1 = df_index df2
      /\ df_columns df1 = df_columns df2
      /\ map record_without_description (df_rows df1)
         = map record_without_description (df_rows df2)
  | Raise e1, Raise e2 => e1 = e2
  | _, _ => False
  end.
Proof.
  assert (Hinit : same_but_descriptions initial initial) by (repeat split).
  pose proof (run_lines_any_dictionary (normalize_dict dict1)
                (normalize_dict dict2) verbose lines initial initial Hinit)
    as Hrun.
  destruct (run_lines (normalize_dict dict1) verbose initial lines)
    as [st1|e1] eqn:Hrun1,
    (run_lines (normalize_dict dict2) verbose initial lines)
    as [st2|e2] eqn:Hrun2; try contradiction.
  - rewrite (read_file_custom_after_loop _ _ _ _ Hrun1).
    rewrite (read_file_custom_after_loop _ _ _ _ Hrun2).
    destruct Hrun as (Htc & Hcc & _ & _ & _ & Hout & Hd).
    destruct (existsb is_test_case_header lines); [|reflexivity].
    cbn [df_index df_columns df_rows].
    split; [now rewrite Htc, Hcc, Hout|].
    split; [reflexivity|]. split; [reflexivity|].
    rewrite !map_map.
    rewrite (map_ext _ _ record_without_description_row (data st1)).
    rewrite (map_ext _ _ record_without_description_row (data st2)).
    clear -Hd. revert Hd. generalize (data st2).
    induction (data st1) as [|row1 rows1 IH]; intros [|row2 rows2] Hd;
      simpl in Hd; try discriminate; [reflexivity|].
    injection Hd as Hrow Hrows. simpl. rewrite (IH _ Hrows).
    unfold without_description in Hrow.
    assert (Hlen : length (take 3 row1) = length (take 3 row2)).
    { apply (f_equal length) in Hrow. rewrite !length_app in Hrow.
      rewrite !length_take, !length_drop in *. lia. }
    apply app_inj_1 in Hrow as [-> ->]; [reflexivity|assumption].
  - rewrite (read_file_custom_raise _ _ _ _ Hrun1).
    rewrite (read_file_custom_raise _ _ _ _ Hrun2). assumption.
Qed.

(** ** A token that is no number, before any test case *)

(** C4, on the code: a row with four tokens of which one is no number, read
    before any "TEST CASE:" line, does make the call fail, but with the
    [UnboundLocalError] of [years] on line 146 and not with the
    [ValueError] of [float] on line 158, which is never reached there.
    Behind a test-case header the call raises [ValueError]
    ([bad_numeric_token_is_fatal]). *)
Theorem bad_token_before_test_case_raises_unbound
  (dict : option (gmap string string)) (verbose : bool) :
  PyFloat.parse "n/a" = None
  /\ read_file_custom report_bad_token_without_test_case dict verbose
     = Raise (UnboundLocalError "years").
Proof.
  split; [vm_compute; reflexivity|].
  apply read_file_custom_raise. unfold report_bad_token_without_test_case.
  cbn [run_lines].
  replace (step (normalize_dict dict) verbose initial "Variable Model Obs Bias RMSE")
    with (Ok (set_in_data true initial)) by (vm_compute; reflexivity).
  cbn [bind]. rewrite step_candidate by (vm_compute; reflexivity).
  rewrite (data_line_bad_token _ _ _ _ "TEMP" ["1.0"; "2.0"; "n/a"; "4.0"]).
  - reflexivity.
  - vm_compute; reflexivity.
  - reflexivity.
  - apply Exists_cons_tl, Exists_cons_tl, Exists_cons_hd.
    vm_compute; reflexivity.
Qed.

(** ** A row without any token *)

(** C7, on the code: an empty line inside the data section is a candidate
    row without four tokens behind a variable name, but it is not dropped:
    [spl.pop(0)] on line 144 raises [IndexError] before the length test of
    line 145, and the call returns no frame. *)
Theorem blank_row_is_not_dropped
  (dict : option (gmap string string)) (verbose : bool) :
  read_file_custom report_with_blank_row dict verbose = Raise IndexError.
Proof.
  apply read_file_custom_raise.
  change report_with_blank_row
    with (take 3 report_with_blank_row ++ [""]).
  rewrite run_lines_app.
  destruct (run_lines (normalize_dict dict) verbose initial
              (take 3 report_with_blank_row)) as [st|e] eqn:Hrun.
  - cbn [bind run_lines].
    apply run_lines_flags in Hrun as (Hin & _).
    replace (step (normalize_dict dict) verbose st "") with
      (data_line (normalize_dict dict) verbose st "")
      by (unfold step; rewrite Hin; reflexivity).
    rewrite data_line_unfold. reflexivity.
  - exfalso. revert Hrun. cbn [take report_with_blank_row run_lines].
    replace (step (normalize_dict dict) verbose initial
               "TEST CASE: run1 (yrs 1980-2000)")
      with (Ok {| test_case := "run1 "; control_case := "";
                  years := Some "1980-2000"; header := Some header_columns;
                  in_data := false; data := []; stdout := [] |})
      by (vm_compute; reflexivity).
    cbn [bind].
    match goal with
    | |- context [step ?d ?v ?st "Variable Model Obs Bias RMSE"] =>
        replace (step d v st "Variable Model Obs Bias RMSE")
          with (Ok (set_in_data true st)) by (vm_compute; reflexivity)
    end.
    cbn [bind]. rewrite step_candidate by (vm_compute; reflexivity).
    rewrite (data_line_emits _ _ _ _ "TEMP" ["1.0"; "2.0"; "3.0"; "4.0"]
               "1980-2000" [f1_0; f2_0; f3_0; f4_0]);
      [discriminate|vm_compute; reflexivity|reflexivity|reflexivity
      |repeat constructor].
Qed.

(** ** Problem variables *)





(** ** The descriptions in the returned frame *)

Lemma supplied_entry_normalize (dict : option (gmap string string))
  (name : string) :
  normalize_dict dict !! name = supplied_entry dict name.
Proof. destruct dict as [d|]; [reflexivity|apply lookup_empty]. Qed.

(** Every row of [data] holds, behind the variable name, what [describe]
    gives for that name under the dictionary of the loop. *)
Lemma run_lines_described d verbose (lines : list string) :
  forall st st' : locals,
    run_lines d verbose st lines = Ok st' ->
    Forall (fun row =>
              exists run ys name vals,
                row = [CStr run; CStr ys; CStr name;
                       CStr (fst (describe d name));
                       CBool (snd (describe d name))] ++ vals)
           (data st) ->
    Forall (fun row =>
              exists run ys name vals,
                row = [CStr run; CStr ys; CStr name;
                       CStr (fst (describe d name));
                       CBool (snd (describe d name))] ++ vals)
           (data st').
Proof.
  induction lines as [|line lines IH]; intros st st' H Hall; simpl in H.
  - now injection H as <-.
  - destruct (step d verbose st line) as [st1|e] eqn:Hstep; [|discriminate].
    cbn [bind] in H. apply (IH _ _ H).
    apply step_data in Hstep
      as [->|(_ & name & toks & y & xs & _ & _ & _ & _ & ->)]; [assumption|].
    apply Forall_app. split; [assumption|]. constructor; [|constructor].
    eauto.
Qed.

(** The records of a returned frame, under the dictionary that the call
    was given. *)
Lemma call_records_described dict verbose (lines : list string)
  (df : DataFrame) (out : list string) :
  read_file_custom lines dict verbose = Ok (df, out) ->
  Forall (fun record =>
            exists run ys name vals,
              record =
              ([CStr run; CStr ys; CStr name;
                CStr (fst (describe (normalize_dict dict) name))],
               CBool (snd (describe (normalize_dict dict) name)) :: vals))
         (df_rows df).
Proof.
  intros Hcall.
  destruct (run_lines (normalize_dict dict) verbose initial lines)
    as [st|e] eqn:Hrun.
  - rewrite (read_file_custom_after_loop _ _ _ _ Hrun) in Hcall.
    destruct (existsb is_test_case_header lines); [|discriminate].
    injection Hcall as <- _. cbn [df_rows]. apply Forall_map.
    assert (Hall := run_lines_described _ _ _ _ _ Hrun).
    eapply Forall_impl; [apply Hall; constructor|].
    intros row (run & ys & name & vals & ->). exists run, ys, name, vals.
    reflexivity.
  - now rewrite (read_file_custom_raise _ _ _ _ Hrun) in Hcall.
Qed.

(** A call that returns a frame returns one under every dictionary. *)
Lemma call_returns_under_any_dictionary dict dict' verbose
  (lines : list string) (df : DataFrame) (out : list string) :
  read_file_custom lines dict verbose = Ok (df, out) ->
  exists df' out', read_file_custom lines dict' verbose = Ok (df', out').
Proof.
  intros Hcall.
  assert (Hinit : same_but_descriptions initial initial) by (repeat split).
  pose proof (run_lines_any_dictionary (normalize_dict dict)
                (normalize_dict dict') verbose lines initial initial Hinit)
    as Hrun.
  destruct (run_lines (normalize_dict dict) verbose initial lines)
    as [st|e] eqn:Hrun1.
  - destruct (run_lines (normalize_dict dict') verbose initial lines)
      as [st'|e'] eqn:Hrun2; [|contradiction].
    rewrite (read_file_custom_after_loop _ _ _ _ Hrun1) in Hcall.
    rewrite (read_file_custom_after_loop _ _ _ _ Hrun2).
    destruct (existsb is_test_case_header lines); [eauto|discriminate].
  - now rewrite (read_file_custom_raise _ _ _ _ Hrun1) in Hcall.
Qed.

(** C8: in every record of a frame that [read_file_custom] returns, the
    flag is set exactly when the dictionary given to the call has a
    non-empty description under the variable name of the record, and then
    the description of the record is that entry; without an entry (or
    without a dictionary), or with an empty entry, the flag is off and the
    description is the empty string.  A missing or an empty entry raises
    nothing: the call returns a frame under every other dictionary as
    well. *)
Theorem description_follows_supplied_dictionary
  (dict : option (gmap string string)) verbose (lines : list string)
  (df : DataFrame) (out : list string) :
  read_file_custom lines dict verbose = Ok (df, out) ->
  Forall (fun record =>
            exists run ys name desc flag vals,
              record = ([CStr run; CStr ys; CStr name; CStr desc],
                        CBool flag :: vals)
              /\ (flag = true <->
                  exists v, supplied_entry dict name = Some v /\ v <> "")
              /\ (flag = true -> supplied_entry dict name = Some desc)
              /\ (flag = false -> desc = ""))
         (df_rows df)
  /\ forall dict' : option (gmap string string),
       exists df' out', read_file_custom lines dict' verbose = Ok (df', out').
Proof.
  intros Hcall. split.
  - eapply Forall_impl; [exact (call_records_described _ _ _ _ _ Hcall)|].
    intros record (run & ys & name & vals & ->).
    exists run, ys, name, (fst (describe (normalize_dict dict) name)),
      (snd (describe (normalize_dict dict) name)), vals.
    split; [reflexivity|].
    pose proof (describe_cases (normalize_dict dict) name) as Hd.
    rewrite supplied_entry_normalize in Hd.
    destruct (supplied_entry dict name) as [v|].
    + destruct (String.eqb_spec v "") as [Heq|Hne]; rewrite Hd; simpl.
      * split; [|split; [discriminate|reflexivity]].
        split; [discriminate|]. intros (v' & Hv' & Hne'). congruence.
      * split; [|split; [reflexivity|discriminate]].
        split; [eauto|reflexivity].
    + rewrite Hd. simpl. split; [|split; [discriminate|reflexivity]].
      split; [discriminate|]. intros (v & Hv & _). discriminate.
  - intros dict'. eapply call_returns_under_any_dictionary. exact Hcall.
Qed.

Lemma description_follows_supplied_dictionary_witness :
  read_file_custom report_example
    (Some (<["TEMP" := "Temperature"]> (<["PS" := ""]> ∅))) false
  = Ok (frame_of_row
          [CStr "run1 "; CStr "1980-2000"; CStr "TEMP"; CStr "Temperature"]
          [CBool true; CFloat f1_0; CFloat f2_0; CFloat f3_0; CFloat f4_0],
        [])
  /\ (Forall (fun record =>
                exists run ys name desc flag vals,
                  record = ([CStr run; CStr ys; CStr name; CStr desc],
                            CBool flag :: vals)
                  /\ (flag = true <->
                      exists v,
                        supplied_entry
                          (Some (<["TEMP" := "Temperature"]> (<["PS" := ""]> ∅)))
                          name = Some v /\ v <> "")
                  /\ (flag = true ->
                      supplied_entry
                        (Some (<["TEMP" := "Temperature"]> (<["PS" := ""]> ∅)))
                        name = Some desc)
                  /\ (flag = false -> desc = ""))
             (df_rows
                (frame_of_row
                   [CStr "run1 "; CStr "1980-2000"; CStr "TEMP";
                    CStr "Temperature"]
                   [CBool true; CFloat f1_0; CFloat f2_0; CFloat f3_0;
                    CFloat f4_0]))
      /\ forall dict' : option (gmap string string),
           exists df' out',
             read_file_custom report_example dict' false = Ok (df', out')).
Proof.
  split; [vm_compute; reflexivity|].
  apply (description_follows_supplied_dictionary
           (Some (<["TEMP" := "Temperature"]> (<["PS" := ""]> ∅))) false
           report_example _ []).
  vm_compute; reflexivity.
Defined.

(** X15: with the dictionary built from a sheet of text cells with at least
    three columns, every record of a frame that [read_file_custom] returns
    has the description [v] and the set flag exactly when the variable
    name of the record is not empty, [v] is not empty, and [v] is the
    description in the last row of the sheet that has the name in
    column 1; otherwise the flag is off and the description is empty. *)
Theorem sheet_description_reaches_record
  (sheet : list (list string)) (w : nat) (res : gmap string string)
  verbose (lines : list string) (df : DataFrame) (out : list string) :
  Forall (fun row => length row = w) sheet ->
  3 <= w ->
  read_var_info_michaels_excel text_truthy sheet = Ok res ->
  read_file_custom lines (Some res) verbose = Ok (df, out) ->
  Forall (fun record =>
            exists run ys name desc flag vals,
              record = ([CStr run; CStr ys; CStr name; CStr desc],
                        CBool flag :: vals)
              /\ (forall v,
                    (desc, flag) = (v, true) <->
                    name <> "" /\ v <> ""
                    /\ exists i row,
                         sheet !! i = Some row
                         /\ row !! 1 = Some name
                         /\ row !! 2 = Some v
                         /\ forall j row',
                              i < j -> sheet !! j = Some row' ->
                              row' !! 1 <> Some name)
              /\ (flag = false -> desc = ""))
         (df_rows df).
Proof.
  intros Hrect Hw Hres Hcall.
  eapply Forall_impl; [exact (call_records_described _ _ _ _ _ Hcall)|].
  intros record (run & ys & name & vals & ->). cbn [normalize_dict].
  exists run, ys, name, (fst (describe res name)), (snd (describe res name)),
    vals.
  split; [reflexivity|]. split.
  - intros v. rewrite <- (describe_of_sheet sheet w res name v Hrect Hw Hres).
    now destruct (describe res name).
  - pose proof (describe_cases res name) as Hd.
    destruct (res !! name) as [v0|].
    + destruct (String.eqb v0 ""); rewrite Hd; [reflexivity|discriminate].
    + now rewrite Hd.
Qed.

Lemma sheet_description_reaches_record_witness :
  Forall (fun row : list string => length row = 3) sheet_example
  /\ 3 <= 3
  /\ read_var_info_michaels_excel text_truthy sheet_example
     = Ok (<["PS" := ""]> (<["TEMP" := "Temperature"]> ∅))
  /\ read_file_custom report_example
       (Some (<["PS" := ""]> (<["TEMP" := "Temperature"]> ∅))) false
     = Ok (frame_of_row
             [CStr "run1 "; CStr "1980-2000"; CStr "TEMP"; CStr "Temperature"]
             [CBool true; CFloat f1_0; CFloat f2_0; CFloat f3_0; CFloat f4_0],
           [])
  /\ Forall (fun record =>
               exists run ys name desc flag vals,
                 record = ([CStr run; CStr ys; CStr name; CStr desc],
                           CBool flag :: vals)
                 /\ (forall v,
                       (desc, flag) = (v, true) <->
                       name <> "" /\ v <> ""
                       /\ exists i row,
                            sheet_example !! i = Some row
                            /\ row !! 1 = Some name
                            /\ row !! 2 = Some v
                            /\ forall j row',
                                 i < j -> sheet_example !! j = Some row' ->
                                 row' !! 1 <> Some name)
                 /\ (flag = false -> desc = ""))
            (df_rows
               (frame_of_row
                  [CStr "run1 "; CStr "1980-2000"; CStr "TEMP";
                   CStr "Temperature"]
                  [CBool true; CFloat f1_0; CFloat f2_0; CFloat f3_0;
                   CFloat f4_0])).
Proof.
  assert (Hrect : Forall (fun row : list string => length row = 3) sheet_example).
  { repeat constructor. }
  split; [exact Hrect|]. split; [lia|].
  split; [vm_compute; reflexivity|].
  split; [vm_compute; reflexivity|].
  apply (sheet_description_reaches_record sheet_example 3
           (<["PS" := ""]> (<["TEMP" := "Temperature"]> ∅))
           false report_example _ [] Hrect (le_n 3)).
  - vm_compute; reflexivity.
  - vm_compute; reflexivity.
Defined.
